(** * Linux service backends of the daemon package (systemd and SysV init)

    A shallow embedding of [daemon_linux.go], [daemon_linux_systemd.go] and
    the SysV backend file, together with the properties of the lifecycle
    operations, the status parsers, the backend probe and the init-script
    template.

    Go strings are byte sequences: they are modelled by [string] (a list of
    [ascii], i.e. of bytes).  Every operating-system interaction of the
    code is an explicit step over a [World]: the file system, the outcome of
    native commands and injected failures are fields of the world, and each
    call is recorded in a trace. *)

From Stdlib Require Import Ascii String List NArith Lia.
From stdpp Require Import base strings gmap list.

Local Open Scope string_scope.

(** ** Byte strings *)

Definition dq : string := String (ascii_of_nat 34) EmptyString.
Definition nl : string := String (ascii_of_nat 10) EmptyString.

(** [strip_prefix p s] is [Some r] when [s = p ++ r]. *)
Fixpoint strip_prefix (p s : string) : option string :=
  match p with
  | EmptyString => Some s
  | String a p' =>
      match s with
      | EmptyString => None
      | String b s' => if Ascii.eqb a b then strip_prefix p' s' else None
      end
  end.

(** [contains pat s]: [pat] occurs in [s] as a contiguous run of bytes
    (Go's [strings.Contains]). *)
Fixpoint contains (pat s : string) : bool :=
  match strip_prefix pat s with
  | Some _ => true
  | None =>
      match s with
      | EmptyString => false
      | String _ s' => contains pat s'
      end
  end.

(** The words "[s] contains the substring [pat]", stated directly. *)
Definition substring_of (pat s : string) : Prop :=
  exists pre post, s = pre +:+ pat +:+ post.

Definition is_digit (c : ascii) : bool :=
  (48 <=? nat_of_ascii c)%nat && (nat_of_ascii c <=? 57)%nat.

Definition is_ascii_byte (c : ascii) : bool := (nat_of_ascii c <? 128)%nat.

Fixpoint string_forall (P : ascii -> bool) (s : string) : bool :=
  match s with
  | EmptyString => true
  | String c s' => P c && string_forall P s'
  end.

(** Longest prefix of digits, and what follows it. *)
Fixpoint span_digits (s : string) : string * string :=
  match s with
  | EmptyString => (EmptyString, EmptyString)
  | String c s' =>
      if is_digit c
      then let '(d, r) := span_digits s' in (String c d, r)
      else (EmptyString, s)
  end.

Fixpoint join (sep : string) (l : list string) : string :=
  match l with
  | [] => EmptyString
  | [x] => x
  | x :: rest => x +:+ sep +:+ join sep rest
  end.

(** ** Errors

    Go's [error] interface value is [option error]: [None] is [nil]. *)

(** Modelled from the spec: the package-level error values [ErrAlreadyInstalled],
    [ErrNotInstalled], [ErrAlreadyRunning], [ErrAlreadyStopped] and the error
    of the privilege guard are declared in another file of the package; the
    spec lists the kinds PermissionDenied, AlreadyInstalled, NotInstalled,
    AlreadyRunning, AlreadyStopped and an opaque underlying command or I/O
    failure. *)
Inductive error : Type :=
  | ErrPermissionDenied
  | ErrAlreadyInstalled
  | ErrNotInstalled
  | ErrAlreadyRunning
  | ErrAlreadyStopped
  | ErrUnderlying (msg : string).

#[global] Instance error_eq_dec : EqDecision error.
Proof. solve_decision. Defined.

(** ** Package regexp

    The two entry points the backends use.  Patterns are compiled by the
    library on every call; the fragment computed here is the one on which
    byte-wise matching is exact: ASCII patterns whose only metacharacter is
    [.], which matches any character but a newline.  A pattern with a
    literal only is matched against any subject; a pattern with [.] against
    ASCII subjects (where one byte is one character).  Outside the
    fragment the library's answer is not computed: it is supplied by the
    environment ([other]) and left unconstrained. *)
Module regexp.

Inductive atom : Type :=
  | Lit (c : ascii)
  | Dot.

(** The characters [regexp.QuoteMeta] escapes. *)
Definition metachars : string := "\.+*?()|[]{}^$".

Fixpoint mem_char (c : ascii) (s : string) : bool :=
  match s with
  | EmptyString => false
  | String d s' => Ascii.eqb c d || mem_char c s'
  end.

Definition is_meta (c : ascii) : bool := mem_char c metachars.

Fixpoint compile (pat : string) : option (list atom) :=
  match pat with
  | EmptyString => Some []
  | String c pat' =>
      if Ascii.eqb c "."
      then cons Dot <$> compile pat'
      else if is_meta c || negb (is_ascii_byte c)
           then None
           else cons (Lit c) <$> compile pat'
  end.

Definition atom_matches (a : atom) (c : ascii) : bool :=
  match a with
  | Lit d => Ascii.eqb d c
  | Dot => negb (Ascii.eqb c (ascii_of_nat 10))
  end.

Fixpoint match_here (r : list atom) (s : string) : bool :=
  match r with
  | [] => true
  | a :: r' =>
      match s with
      | EmptyString => false
      | String c s' => atom_matches a c && match_here r' s'
      end
  end.

(** Unanchored search: a match may start at any position. *)
Fixpoint search (r : list atom) (s : string) : bool :=
  match_here r s ||
  match s with
  | EmptyString => false
  | String _ s' => search r s'
  end.

Definition has_dot (r : list atom) : bool :=
  existsb (fun a => match a with Dot => true | Lit _ => false end) r.

(** [regexp.MatchString(pattern, s)]: whether [s] contains a match, and
    the compilation error. *)
Definition MatchString (other : string -> string -> bool * option error)
    (pattern s : string) : bool * option error :=
  match compile pattern with
  | Some r =>
      if has_dot r && negb (string_forall is_ascii_byte s)
      then other pattern s
      else (search r s, None)
  | None => other pattern s
  end.

(** [regexp.MustCompile(lit + "([0-9]+)").FindStringSubmatch(s)] for a
    literal [lit] free of metacharacters: the leftmost place where [lit]
    is followed by a digit, with the longest run of digits as group 1.
    The result is Go's slice: empty ([nil]) when nothing matches, else
    the whole match followed by the group. *)
Fixpoint FindStringSubmatch_digits (lit s : string) : list string :=
  let next :=
    match s with
    | EmptyString => []
    | String _ s' => FindStringSubmatch_digits lit s'
    end in
  match strip_prefix lit s with
  | Some rest =>
      match span_digits rest with
      | (EmptyString, _) => next
      | (d, _) => [lit +:+ d; d]
      end
  | None => next
  end.

End regexp.

(** ** Package text/template

    The templates of the backends use one kind of action, [{{.Field}}]: a
    field of the data value, printed as it is (text/template does not
    escape).  [Parse] splits the template text at the delimiters; an
    action left open, or one that is not a field reference, is reported as
    a parse error. *)
Module template.

Inductive segment : Type :=
  | Text (t : string)
  | Action (a : string).

Definition push (in_action : bool) (c : ascii) (segs : list segment)
    : list segment :=
  match in_action, segs with
  | true, Action a :: r => Action (String c a) :: r
  | false, Text t :: r => Text (String c t) :: r
  | true, _ => Action (String c EmptyString) :: segs
  | false, _ => Text (String c EmptyString) :: segs
  end.

Fixpoint scan (in_action : bool) (s : string) : option (list segment) :=
  match s with
  | EmptyString => if in_action then None else Some []
  | String c s' =>
      match in_action, c, s' with
      | false, "{"%char, String "{"%char rest =>
          scan true rest
      | true, "}"%char, String "}"%char rest =>
          cons (Action EmptyString) <$> scan false rest
      | _, _, _ => push in_action c <$> scan in_action s'
      end
  end.

Definition is_ident_char (c : ascii) : bool :=
  let n := nat_of_ascii c in
  ((65 <=? n) && (n <=? 90) || (97 <=? n) && (n <=? 122)
   || (48 <=? n) && (n <=? 57) || (n =? 95))%nat.

(** The field an action refers to: [.Ident]. *)
Definition field_of (a : string) : option string :=
  match a with
  | String "."%char (String c r) =>
      if string_forall is_ident_char (String c r)
      then Some (String c r) else None
  | _ => None
  end.

Definition valid (seg : segment) : bool :=
  match seg with
  | Text _ => true
  | Action a =>
      match field_of a with
      | Some _ => true
      | None => false
      end
  end.

(** [template.New(name).Parse(text)]. *)
Definition Parse (text : string) : option (list segment) :=
  match scan false text with
  | Some segs => if forallb valid segs then Some segs else None
  | None => None
  end.

(** The data value is a struct of string fields, looked up by name. *)
Definition data := list (string * string).

Fixpoint lookup_field (f : string) (d : data) : option string :=
  match d with
  | [] => None
  | (k, v) :: d' => if String.eqb k f then Some v else lookup_field f d'
  end.

(** [Execute]: the rendered text, or [None] when a field is missing. *)
Fixpoint Execute (segs : list segment) (d : data) : option string :=
  match segs with
  | [] => Some EmptyString
  | Text t :: r => String.append t <$> Execute r d
  | Action a :: r =>
      match field_of a with
      | Some f =>
          match lookup_field f d with
          | Some v => String.append v <$> Execute r d
          | None => None
          end
      | None => None
      end
  end.

End template.

(** ** The operating system

    The file system maps a path, as the code spells it, to the node it
    names.  [os.Stat] succeeds exactly on the paths that name a node; every
    other call can also fail for a reason of the host (a read-only file
    system, a missing directory, ...): the world's [fault] says which calls
    fail, and with which error.  Native commands are run by the host:
    [command] gives, from the calls made so far, the standard output and the
    error of a command line. *)

Inductive node : Type :=
  | File (content : string) (mode : N)
  | Symlink (target : string)
  | Dir.

Inductive event : Type :=
  | EvCheckPrivileges
  | EvExecutablePath (name : string)
  | EvStat (path : string)
  | EvCreate (path : string)
  | EvWrite (path : string) (data : string)
  | EvClose (path : string)
  | EvChmod (path : string) (mode : N)
  | EvSymlink (oldname newname : string)
  | EvRemove (path : string)
  | EvExec (argv : list string).

#[global] Instance node_eq_dec : EqDecision node.
Proof. solve_decision. Defined.

#[global] Instance event_eq_dec : EqDecision event.
Proof. solve_decision. Defined.

Record World : Type := mkWorld {
  fs : gmap string node;
  trace : list event;
  privileged : bool;
  executable : string -> string * option error;
  fault : event -> option error;
  command : list event -> list string -> string * option error;
  regexp_other : string -> string -> bool * option error
}.

Definition set_fs (f : gmap string node) (w : World) : World :=
  mkWorld f (trace w) (privileged w) (executable w) (fault w) (command w)
          (regexp_other w).

Definition record (e : event) (w : World) : World :=
  mkWorld (fs w) (trace w ++ [e]) (privileged w) (executable w) (fault w)
          (command w) (regexp_other w).

(** The calls that change the state of the host: files created, written,
    re-moded, linked or deleted, and native commands. *)
Definition mutating (e : event) : bool :=
  match e with
  | EvCheckPrivileges | EvExecutablePath _ | EvStat _ | EvClose _ => false
  | EvCreate _ | EvWrite _ _ | EvChmod _ _ | EvSymlink _ _ | EvRemove _
  | EvExec _ => true
  end.

(** *** A state monad over the world *)

Definition M (A : Type) : Type := World -> A * World.

Definition ret {A} (a : A) : M A := fun w => (a, w).

Definition bind {A B} (m : M A) (k : A -> M B) : M B :=
  fun w => let '(a, w') := m w in k a w'.

Notation "'let*' x ':=' m 'in' k" := (bind m (fun x => k))
  (at level 10, x pattern, m at level 100, k at level 200, only parsing).

Definition get_world : M World := fun w => (w, w).

(** [for _, i := range l { body }]. *)
Fixpoint for_each {A} (l : list A) (body : A -> M unit) : M unit :=
  match l with
  | [] => ret tt
  | x :: l' => let* _ := body x in for_each l' body
  end.

(** *** System calls *)

Definition enoent : error := ErrUnderlying "no such file or directory".
Definition eexist : error := ErrUnderlying "file exists".
Definition eisdir : error := ErrUnderlying "is a directory".

(** A call that may change the file system: it is recorded, fails when the
    host says so, and otherwise fails or succeeds by the state of the file
    system. *)
Definition syscall (e : event)
    (step : gmap string node -> error + gmap string node) : M (option error) :=
  fun w =>
    match fault w e with
    | Some err => (Some err, record e w)
    | None =>
        match step (fs w) with
        | inl err => (Some err, record e w)
        | inr f => (None, record e (set_fs f w))
        end
    end.

(** [os.Stat(path)], for its error only. *)
Definition os_Stat (path : string) : M (option error) :=
  fun w =>
    (match fs w !! path with Some _ => None | None => Some enoent end,
     record (EvStat path) w).

Definition mode_0666 : N := 438.
Definition mode_0755 : N := 493.

(** [os.Create(path)]: the file is created with mode 0666, or truncated. *)
Definition os_Create (path : string) : M (option error) :=
  syscall (EvCreate path) (fun f =>
    match f !! path with
    | None => inr (<[path := File EmptyString mode_0666]> f)
    | Some (File _ m) => inr (<[path := File EmptyString m]> f)
    | Some _ => inl eisdir
    end).

(** Writing to the open file appends to it. *)
Definition file_Write (path data : string) : M (option error) :=
  syscall (EvWrite path data) (fun f =>
    match f !! path with
    | Some (File c m) => inr (<[path := File (c +:+ data) m]> f)
    | _ => inl enoent
    end).

Definition file_Close (path : string) : M unit :=
  fun w => (tt, record (EvClose path) w).

Definition os_Chmod (path : string) (mode : N) : M (option error) :=
  syscall (EvChmod path mode) (fun f =>
    match f !! path with
    | Some (File c _) => inr (<[path := File c mode]> f)
    | Some _ => inr f
    | None => inl enoent
    end).

Definition os_Symlink (oldname newname : string) : M (option error) :=
  syscall (EvSymlink oldname newname) (fun f =>
    match f !! newname with
    | Some _ => inl eexist
    | None => inr (<[newname := Symlink oldname]> f)
    end).

Definition os_Remove (path : string) : M (option error) :=
  syscall (EvRemove path) (fun f =>
    match f !! path with
    | Some _ => inr (delete path f)
    | None => inl enoent
    end).

(** [exec.Command(argv...).Output()]: standard output and error. *)
Definition exec_Output (argv : list string) : M (string * option error) :=
  fun w => (command w (trace w) argv, record (EvExec argv) w).

(** [exec.Command(argv...).Run()]. *)
Definition exec_Run (argv : list string) : M (option error) :=
  let* (_, err) := exec_Output argv in ret err.

Definition regexp_MatchString (pattern s : string) : M (bool * option error) :=
  let* w := get_world in
  ret (regexp.MatchString (regexp_other w) pattern s).

(** [defer file.Close()]: the file is closed when the function returns. *)
Definition defer_Close {A} (path : string) (body : M A) : M A :=
  let* r := body in let* _ := file_Close path in ret r.

(** *** Helpers of the package declared in another file of the package *)

(** Modelled from the spec: the privilege guard [checkPrivileges] is
    declared in another file of the package.  The spec: it "fails with a
    PermissionDenied-class error [...] when the calling process lacks rights
    to the backend's canonical paths/commands (e.g., not running as the
    privileged OS account)".  It reads the identity of the process and
    changes nothing. *)
Definition checkPrivileges : M (bool * option error) :=
  fun w =>
    (if privileged w then (true, None) else (false, Some ErrPermissionDenied),
     record EvCheckPrivileges w).

(** Modelled from the spec: the executable-path resolver [executablePath]
    is declared in another file of the package; the spec takes it as an
    opaque capability that returns the absolute path of the executable.  Its
    answer is the host's. *)
Definition executablePath (name : string) : M (string * option error) :=
  fun w => (executable w name, record (EvExecutablePath name) w).

(** The markers [success] and [failed] appended to the action messages are
    constants declared in another file of the package: they are parameters. *)
Class Markers : Type := { success : string; failed : string }.

Definition is_nil (err : option error) : bool :=
  match err with None => true | Some _ => false end.

(** The lines of a text, each closed by a newline. *)
Definition unlines (l : list string) : string :=
  fold_right (fun x acc => x +:+ nl +:+ acc) EmptyString l.

Definition template_error : error := ErrUnderlying "template".

(** [templ.Execute(file, data)]: the template is rendered and written to the
    open file (as one write). *)
Definition template_Execute (path : string) (templ : list template.segment)
    (d : template.data) : M (option error) :=
  match template.Execute templ d with
  | Some out => file_Write path out
  | None => ret (Some template_error)
  end.

(** ** The SysV init backend *)
Module SystemV.

Record systemVRecord : Type := mkRecord {
  name : string;
  port : string;
  version : string;
  description : string;
  dependencies : list string
}.

Definition systemVConfig_lines : list string :=
  [
    "#! /bin/sh";
    "#";
    "#       /etc/rc.d/init.d/{{.Name}}";
    "#";
    "#       Starts {{.Name}} as a daemon";
    "#";
    "# chkconfig: 2345 87 17";
    "# description: Starts and stops a single {{.Name}} instance on this system";
    EmptyString;
    "### BEGIN INIT INFO";
    "# Provides: {{.Name}} ";
    "# Required-Start: $network $named";
    "# Required-Stop: $network $named";
    "# Default-Start: 2 3 4 5";
    "# Default-Stop: 0 1 6";
    "# Short-Description: This service manages the {{.Description}}.";
    "# Description: {{.Description}}";
    "### END INIT INFO";
    EmptyString;
    "#";
    "# Source function library.";
    "#";
    "if [ -f /etc/rc.d/init.d/functions ]; then";
    "    . /etc/rc.d/init.d/functions";
    "fi";
    EmptyString;
    "exec=" +:+ dq +:+ "{{.Path}}" +:+ dq;
    "servname=" +:+ dq +:+ "{{.Description}}" +:+ dq;
    "port=" +:+ dq +:+ "{{.Port}}" +:+ dq;
    "version=" +:+ dq +:+ "{{.Version}}" +:+ dq;
    EmptyString;
    "proc=" +:+ dq +:+ "{{.Name}}" +:+ dq;
    "pidfile=" +:+ dq +:+ "/var/run/$proc.pid" +:+ dq;
    "lockfile=" +:+ dq +:+ "/var/lock/subsys/$proc" +:+ dq;
    "stdoutlog=" +:+ dq +:+ "/var/log/$proc.log" +:+ dq;
    "stderrlog=" +:+ dq +:+ "/var/log/$proc.err" +:+ dq;
    EmptyString;
    "privilegeCheck() {";
    "    testFile=" +:+ dq +:+ "/var/tmp/${proc}_testPriv.t" +:+ dq;
    "    touch $testFile";
    "    chown root:root $testFile 2>/dev/null";
    "    if [ $? != 0 ]; then";
    "        rm -f $testFile";
    "        echo " +:+ dq +:+ "Error:  You must have root user privileges. Possibly using 'sudo' command should help" +:+ dq;
    "        exit 1";
    "    fi";
    "    rm -f $testFile";
    "    if [ $? != 0 ]; then";
    "        echo " +:+ dq +:+ "Error:  You must have root user privileges. Possibly using 'sudo' command should help" +:+ dq;
    "        exit 1";
    "    fi";
    "}";
    EmptyString;
    "# root or sudo command";
    "privilegeCheck";
    EmptyString;
    "[ -d $(dirname $lockfile) ] || mkdir -p $(dirname $lockfile)";
    EmptyString;
    "[ -e /etc/sysconfig/$proc ] && . /etc/sysconfig/$proc";
    EmptyString;
    "start() {";
    "    [ -x $exec ] || exit 5";
    EmptyString;
    "    if [ -f $pidfile ]; then";
    "        if ! [ -d " +:+ dq +:+ "/proc/$(cat $pidfile)" +:+ dq +:+ " ]; then";
    "            rm $pidfile";
    "            if [ -f $lockfile ]; then";
    "                rm $lockfile";
    "            fi";
    "        fi";
    "    fi";
    EmptyString;
    "    if ! [ -f $pidfile ]; then";
    "        printf " +:+ dq +:+ "Starting $servname:\t" +:+ dq;
    "        if [ $? != 0 ]; then";
    "            echo -n " +:+ dq +:+ "Starting $servname:     " +:+ dq;
    "        fi";
    "        echo " +:+ dq +:+ "$(date)" +:+ dq +:+ " >> $stdoutlog";
    "        $exec {{.Args}} >> $stdoutlog 2>> $stderrlog &";
    "        echo $! > $pidfile";
    "        touch $lockfile";
    "        success 2>/dev/null";
    "        if [ $? != 0 ]; then";
    "            echo " +:+ dq +:+ "[ OK ]" +:+ dq;
    "        else";
    "            echo";
    "        fi";
    "    else";
    "        # failure";
    "        echo";
    "        printf " +:+ dq +:+ "$pidfile still exists...\n" +:+ dq;
    "        if [ $? != 0 ]; then";
    "            echo " +:+ dq +:+ "$pidfile still exists..." +:+ dq;
    "        fi";
    "        exit 7";
    "    fi";
    "}";
    EmptyString;
    "stop() {";
    "    printf " +:+ dq +:+ "Stopping $servname:\t" +:+ dq;
    "    if [ $? != 0 ]; then";
    "        echo -n " +:+ dq +:+ "Stopping $servname:     " +:+ dq;
    "    fi";
    "    kill -9 $(cat $pidfile) && rm -f $pidfile";
    "    retval=$?";
    "    [ $retval -eq 0 ] && rm -f $lockfile";
    "    if [ $? != 0 ]; then";
    "        failure 2>/dev/null";
    "        if [ $? != 0 ]; then";
    "            echo " +:+ dq +:+ "[ FAILED ]" +:+ dq;
    "        else";
    "            echo";
    "        fi";
    "    else";
    "        success 2>/dev/null";
    "        if [ $? != 0 ]; then";
    "            echo " +:+ dq +:+ "[ OK ]" +:+ dq;
    "        else";
    "            echo";
    "        fi";
    "    fi";
    "    return $retval";
    "}";
    EmptyString;
    "clear() {";
    "    rm -f $pidfile";
    "    rm -f $lockfile";
    "}";
    EmptyString;
    "restart() {";
    "    stop >/dev/null 2>/dev/null";
    "    start";
    "}";
    EmptyString;
    "rh_status() {";
    "        pidCmd=$(lsof -i${port} | awk '{print $2;}' | sed -n 2p)";
    "        if [ ! -f " +:+ dq +:+ "$pidfile" +:+ dq +:+ " ] && [ -z " +:+ dq +:+ "$pidCmd" +:+ dq +:+ " ]; then";
    "            echo " +:+ dq +:+ "$servname is stopped" +:+ dq +:+ ";";
    "            return 1;";
    "        fi";
    "        pid=$(cat $pidfile);";
    "        if [ " +:+ dq +:+ "$pidCmd" +:+ dq +:+ " != " +:+ dq +:+ "$pid" +:+ dq +:+ " ]; then";
    "            if [ ! -z " +:+ dq +:+ "$pid" +:+ dq +:+ " ]; then";
    "                kill -9 $pid";
    "            fi";
    "            if [ ! -z " +:+ dq +:+ "$pidCmd" +:+ dq +:+ " ]; then";
    "                echo " +:+ dq +:+ "$pidCmd" +:+ dq +:+ " > " +:+ dq +:+ "$pidfile" +:+ dq +:+ ";";
    "                touch $lockfile";
    "                echo " +:+ dq +:+ "$servname is running [pid  $(cat $pidfile)]" +:+ dq +:+ ";";
    "                return 0;";
    "            fi";
    "            clear";
    "            echo " +:+ dq +:+ "$servname is stopped" +:+ dq +:+ ";";
    "            return 1;";
    "        fi";
    "        echo " +:+ dq +:+ "$servname is running [pid  $pid]" +:+ dq +:+ ";";
    "        return 0;";
    "}";
    EmptyString;
    "rh_status_q() {";
    "    rh_status >/dev/null 2>&1";
    "}";
    EmptyString;
    "case " +:+ dq +:+ "$1" +:+ dq +:+ " in";
    "    start)";
    "        rh_status_q && exit 0";
    "        $1";
    "        ;;";
    "    stop)";
    "        rh_status_q || exit 0";
    "        $1";
    "        ;;";
    "    restart)";
    "        $1";
    "        ;;";
    "    status)";
    "        rh_status";
    "        ;;";
    "    version)";
    "        echo $version";
    "        ;;";
    "    description)";
    "        echo $servname";
    "        ;;";
    "    execpath)";
    "        echo $exec";
    "        ;;";
    "    *" +:+ ")";
    "        echo " +:+ dq +:+ "Usage: $0 {start|stop|status|restart|version|description|execpath}" +:+ dq;
    "        exit 2";
    "esac";
    EmptyString;
    "exit $?"
  ].

Definition systemVConfig : string := unlines systemVConfig_lines.

Section methods.
Context {markers : Markers}.

(** Standard service path for systemV daemons *)
Definition servicePath (linux : systemVRecord) : string :=
  "/etc/init.d/" +:+ name linux.

(** Is a service installed *)
Definition isInstalled (linux : systemVRecord) : M bool :=
  let* err := os_Stat (servicePath linux) in
  ret (is_nil err).

(** Check service is running *)
Definition checkRunning (linux : systemVRecord) : M (string * bool) :=
  let stopped := ("Service " +:+ name linux +:+ " is stopped", false) in
  let* (output, err) := exec_Output ["service"; name linux; "status"] in
  if is_nil err then
    let* (matched, err) := regexp_MatchString "running" output in
    if is_nil err && matched then
      let* (matched, err) := regexp_MatchString (name linux) output in
      if is_nil err && matched then
        let data := regexp.FindStringSubmatch_digits "pid  " output in
        if (1 <? length data)%nat then
          ret ("Service " +:+ name linux +:+ " (pid  "
               +:+ nth 1 data EmptyString +:+ ") is running...", true)
        else ret ("Service " +:+ name linux +:+ " is running...", true)
      else ret stopped
    else ret stopped
  else ret stopped.

(** Install the service *)
Definition Install (linux : systemVRecord) (args : list string)
    : M (string * option error) :=
  let installAction := "Install " +:+ description linux +:+ ":" in
  let* (ok, err) := checkPrivileges in
  if negb ok then ret (installAction +:+ failed, err) else
  let srvPath := servicePath linux in
  let* installed := isInstalled linux in
  if installed then ret (installAction +:+ failed, Some ErrAlreadyInstalled)
  else
  let* err := os_Create srvPath in
  match err with
  | Some e => ret (installAction +:+ failed, Some e)
  | None =>
  defer_Close srvPath (
    let* (execPatch, err) := executablePath (name linux) in
    match err with
    | Some e => ret (installAction +:+ failed, Some e)
    | None =>
    match template.Parse systemVConfig with
    | None => ret (installAction +:+ failed, Some template_error)
    | Some templ =>
    let* err := template_Execute srvPath templ
      [("Name", name linux); ("Port", port linux);
       ("Version", version linux); ("Description", description linux);
       ("Path", execPatch); ("Args", join " " args)] in
    match err with
    | Some e => ret (installAction +:+ failed, Some e)
    | None =>
    let* err := os_Chmod srvPath mode_0755 in
    match err with
    | Some e => ret (installAction +:+ failed, Some e)
    | None =>
    let* _ := for_each ["2"; "3"; "4"; "5"] (fun i =>
      let* _ := os_Symlink srvPath
                  ("/etc/rc" +:+ i +:+ ".d/S87" +:+ name linux) in
      ret tt) in
    let* _ := for_each ["0"; "1"; "6"] (fun i =>
      let* _ := os_Symlink srvPath
                  ("/etc/rc" +:+ i +:+ ".d/K17" +:+ name linux) in
      ret tt) in
    ret (installAction +:+ success, None)
    end end end end)
  end.

(** Remove the service *)
Definition Remove (linux : systemVRecord) : M (string * option error) :=
  let removeAction := "Removing " +:+ description linux +:+ ":" in
  let* (ok, err) := checkPrivileges in
  if negb ok then ret (removeAction +:+ failed, err) else
  let* installed := isInstalled linux in
  if negb installed then ret (removeAction +:+ failed, Some ErrNotInstalled)
  else
  let* err := os_Remove (servicePath linux) in
  match err with
  | Some e => ret (removeAction +:+ failed, Some e)
  | None =>
  let* _ := for_each ["2"; "3"; "4"; "5"] (fun i =>
    let* _ := os_Remove ("/etc/rc" +:+ i +:+ ".d/S87" +:+ name linux) in
    ret tt) in
  let* _ := for_each ["0"; "1"; "6"] (fun i =>
    let* _ := os_Remove ("/etc/rc" +:+ i +:+ ".d/K17" +:+ name linux) in
    ret tt) in
  ret (removeAction +:+ success, None)
  end.

(** Start the service *)
Definition Start (linux : systemVRecord) : M (string * option error) :=
  let startAction := "Starting " +:+ description linux +:+ ":" in
  let* (ok, err) := checkPrivileges in
  if negb ok then ret (startAction +:+ failed, err) else
  let* installed := isInstalled linux in
  if negb installed then ret (startAction +:+ failed, Some ErrNotInstalled)
  else
  let* (_, ok) := checkRunning linux in
  if ok then ret (startAction +:+ failed, Some ErrAlreadyRunning) else
  let* err := exec_Run ["service"; name linux; "start"] in
  match err with
  | Some e => ret (startAction +:+ failed, Some e)
  | None => ret (startAction +:+ success, None)
  end.

(** Stop the service *)
Definition Stop (linux : systemVRecord) : M (string * option error) :=
  let stopAction := "Stopping " +:+ description linux +:+ ":" in
  let* (ok, err) := checkPrivileges in
  if negb ok then ret (stopAction +:+ failed, err) else
  let* installed := isInstalled linux in
  if negb installed then ret (stopAction +:+ failed, Some ErrNotInstalled)
  else
  let* (_, ok) := checkRunning linux in
  if negb ok then ret (stopAction +:+ failed, Some ErrAlreadyStopped) else
  let* err := exec_Run ["service"; name linux; "stop"] in
  match err with
  | Some e => ret (stopAction +:+ failed, Some e)
  | None => ret (stopAction +:+ success, None)
  end.

(** Status - Get service status *)
Definition Status (linux : systemVRecord) : M (string * option error) :=
  let* (ok, err) := checkPrivileges in
  if negb ok then ret (EmptyString, err) else
  let* installed := isInstalled linux in
  if negb installed
  then ret ("Status could not defined", Some ErrNotInstalled) else
  let* (statusAction, _) := checkRunning linux in
  ret (statusAction, None).

(** Path - Get service path *)
Definition ExecPath (linux : systemVRecord) (serviceName : string)
    : M (string * option error) :=
  let* (ok, err) := checkPrivileges in
  if negb ok then ret (EmptyString, err) else
  let* installed := isInstalled linux in
  if negb installed then ret (EmptyString, Some ErrNotInstalled) else
  let serviceName :=
    if String.eqb serviceName EmptyString then name linux
    else serviceName in
  let* (output, err) := exec_Output ["service"; serviceName; "execpath"] in
  ret (output, err).

(** Restart the service *)
Definition Restart (linux : systemVRecord) : M (string * option error) :=
  let startAction := "Restarting " +:+ description linux +:+ ":" in
  let* (ok, err) := checkPrivileges in
  if negb ok then ret (startAction +:+ failed, err) else
  let* installed := isInstalled linux in
  if negb installed then ret (startAction +:+ failed, Some ErrNotInstalled)
  else
  let* err := exec_Run ["service"; name linux; "restart"] in
  match err with
  | Some e => ret (startAction +:+ failed, Some e)
  | None => ret (startAction +:+ success, None)
  end.

End methods.
End SystemV.

(** ** The systemd backend *)
Module SystemD.

Record systemDRecord : Type := mkRecord {
  name : string;
  port : string;
  version : string;
  description : string;
  dependencies : list string
}.

Definition systemDConfig_lines : list string :=
  [
    "[Unit]";
    "Description={{.Description}}";
    "Requires={{.Dependencies}}";
    "After={{.Dependencies}}";
    EmptyString;
    "[Service]";
    "PIDFile=/var/run/{{.Name}}.pid";
    "ExecStartPre=/bin/rm -f /var/run/{{.Name}}.pid";
    "ExecStart={{.Path}}";
    "Restart=on-abort";
    "Port={{.Port}}";
    "Version={{.Version}}";
    EmptyString;
    "[Install]";
    "WantedBy=multi-user.target"
  ].

Definition systemDConfig : string := unlines systemDConfig_lines.

Section methods.
Context {markers : Markers}.

(** Standard service path for systemD daemons *)
Definition servicePath (linux : systemDRecord) : string :=
  "/etc/systemd/system/" +:+ name linux +:+ ".service".

(** Is a service installed *)
Definition isInstalled (linux : systemDRecord) : M bool :=
  let* err := os_Stat (servicePath linux) in
  ret (is_nil err).

(** Check service is running *)
Definition checkRunning (linux : systemDRecord) : M (string * bool) :=
  let stopped := ("Service " +:+ name linux +:+ " is stopped", false) in
  let* (output, err) :=
    exec_Output ["systemctl"; "status"; name linux +:+ ".service"] in
  if is_nil err then
    let* (matched, err) := regexp_MatchString "Active: active" output in
    if is_nil err && matched then
      let data := regexp.FindStringSubmatch_digits "Main PID: " output in
      if (1 <? length data)%nat then
        ret ("Service " +:+ name linux +:+ " (pid  "
             +:+ nth 1 data EmptyString +:+ ") is running...", true)
      else ret ("Service " +:+ name linux +:+ " is running...", true)
    else ret stopped
  else ret stopped.

(** Install the service *)
Definition Install (linux : systemDRecord) (args : list string)
    : M (string * option error) :=
  let installAction := "Install " +:+ description linux +:+ ":" in
  let* (ok, err) := checkPrivileges in
  if negb ok then ret (installAction +:+ failed, err) else
  let srvPath := servicePath linux in
  let* installed := isInstalled linux in
  if installed then ret (installAction +:+ failed, Some ErrAlreadyInstalled)
  else
  let* err := os_Create srvPath in
  match err with
  | Some e => ret (installAction +:+ failed, Some e)
  | None =>
  defer_Close srvPath (
    let* (execPatch, err) := executablePath (name linux) in
    match err with
    | Some e => ret (installAction +:+ failed, Some e)
    | None =>
    match template.Parse systemDConfig with
    | None => ret (installAction +:+ failed, Some template_error)
    | Some templ =>
    let path := app [execPatch] args in
    let* err := template_Execute srvPath templ
      [("Name", name linux); ("Port", port linux);
       ("Version", version linux); ("Description", description linux);
       ("Dependencies", join " " (dependencies linux));
       ("Path", join " " path)] in
    match err with
    | Some e => ret (installAction +:+ failed, Some e)
    | None =>
    let* err := exec_Run ["systemctl"; "daemon-reload"] in
    match err with
    | Some e => ret (installAction +:+ failed, Some e)
    | None =>
    let* err :=
      exec_Run ["systemctl"; "enable"; name linux +:+ ".service"] in
    match err with
    | Some e => ret (installAction +:+ failed, Some e)
    | None => ret (installAction +:+ success, None)
    end end end end end)
  end.

(** Remove the service *)
Definition Remove (linux : systemDRecord) : M (string * option error) :=
  let removeAction := "Removing " +:+ description linux +:+ ":" in
  let* (ok, err) := checkPrivileges in
  if negb ok then ret (removeAction +:+ failed, err) else
  let* installed := isInstalled linux in
  if negb installed then ret (removeAction +:+ failed, Some ErrNotInstalled)
  else
  let* err :=
    exec_Run ["systemctl"; "disable"; name linux +:+ ".service"] in
  match err with
  | Some e => ret (removeAction +:+ failed, Some e)
  | None =>
  let* err := os_Remove (servicePath linux) in
  match err with
  | Some e => ret (removeAction +:+ failed, Some e)
  | None => ret (removeAction +:+ success, None)
  end end.

(** Start the service *)
Definition Start (linux : systemDRecord) : M (string * option error) :=
  let startAction := "Starting " +:+ description linux +:+ ":" in
  let* (ok, err) := checkPrivileges in
  if negb ok then ret (startAction +:+ failed, err) else
  let* installed := isInstalled linux in
  if negb installed then ret (startAction +:+ failed, Some ErrNotInstalled)
  else
  let* (_, ok) := checkRunning linux in
  if ok then ret (startAction +:+ failed, Some ErrAlreadyRunning) else
  let* err := exec_Run ["systemctl"; "start"; name linux +:+ ".service"] in
  match err with
  | Some e => ret (startAction +:+ failed, Some e)
  | None => ret (startAction +:+ success, None)
  end.

(** Stop the service *)
Definition Stop (linux : systemDRecord) : M (string * option error) :=
  let stopAction := "Stopping " +:+ description linux +:+ ":" in
  let* (ok, err) := checkPrivileges in
  if negb ok then ret (stopAction +:+ failed, err) else
  let* installed := isInstalled linux in
  if negb installed then ret (stopAction +:+ failed, Some ErrNotInstalled)
  else
  let* (_, ok) := checkRunning linux in
  if negb ok then ret (stopAction +:+ failed, Some ErrAlreadyStopped) else
  let* err := exec_Run ["systemctl"; "stop"; name linux +:+ ".service"] in
  match err with
  | Some e => ret (stopAction +:+ failed, Some e)
  | None => ret (stopAction +:+ success, None)
  end.

(** Status - Get service status *)
Definition Status (linux : systemDRecord) : M (string * option error) :=
  let* (ok, err) := checkPrivileges in
  if negb ok then ret (EmptyString, err) else
  let* installed := isInstalled linux in
  if negb installed
  then ret ("Status could not defined", Some ErrNotInstalled) else
  let* (statusAction, _) := checkRunning linux in
  ret (statusAction, None).

(** Path - Get service path *)
Definition ExecPath (linux : systemDRecord) (serviceName : string)
    : M (string * option error) :=
  let* (ok, err) := checkPrivileges in
  if negb ok then ret (EmptyString, err) else
  let* installed := isInstalled linux in
  if negb installed then ret (EmptyString, Some ErrNotInstalled) else
  let serviceName :=
    if String.eqb serviceName EmptyString then name linux
    else serviceName in
  let* (output, err) :=
    exec_Output ["systemctl"; "execpath"; serviceName +:+ ".service"] in
  ret (output, err).

(** Restart the service *)
Definition Restart (linux : systemDRecord) : M (string * option error) :=
  let startAction := "Restarting " +:+ description linux +:+ ":" in
  let* (ok, err) := checkPrivileges in
  if negb ok then ret (startAction +:+ failed, err) else
  let* installed := isInstalled linux in
  if negb installed then ret (startAction +:+ failed, Some ErrNotInstalled)
  else
  let* err :=
    exec_Run ["systemctl"; "restart"; name linux +:+ ".service"] in
  match err with
  | Some e => ret (startAction +:+ failed, Some e)
  | None => ret (startAction +:+ success, None)
  end.

End methods.
End SystemD.

(** ** Backend selection *)

(** The [Daemon] interface has two implementations on Linux. *)
Inductive Daemon : Type :=
  | systemD (linux : SystemD.systemDRecord)
  | systemV (linux : SystemV.systemVRecord).

(** Get the daemon properly *)
Definition newDaemon (name port version description : string)
    (dependencies : list string) : M (Daemon * option error) :=
  let* err := os_Stat "/run/systemd/system" in
  if is_nil err then
    ret (systemD (SystemD.mkRecord name port version description dependencies),
         None)
  else
    ret (systemV (SystemV.mkRecord name port version description dependencies),
         None).

(** The methods of the interface, and the call of one on a backend. *)
Inductive operation : Type :=
  | OpInstall (args : list string)
  | OpRemove
  | OpStart
  | OpStop
  | OpRestart
  | OpStatus
  | OpExecPath (serviceName : string).

Definition call {markers : Markers} (d : Daemon) (op : operation)
    : M (string * option error) :=
  match d, op with
  | systemD linux, OpInstall args => SystemD.Install linux args
  | systemD linux, OpRemove => SystemD.Remove linux
  | systemD linux, OpStart => SystemD.Start linux
  | systemD linux, OpStop => SystemD.Stop linux
  | systemD linux, OpRestart => SystemD.Restart linux
  | systemD linux, OpStatus => SystemD.Status linux
  | systemD linux, OpExecPath n => SystemD.ExecPath linux n
  | systemV linux, OpInstall args => SystemV.Install linux args
  | systemV linux, OpRemove => SystemV.Remove linux
  | systemV linux, OpStart => SystemV.Start linux
  | systemV linux, OpStop => SystemV.Stop linux
  | systemV linux, OpRestart => SystemV.Restart linux
  | systemV linux, OpStatus => SystemV.Status linux
  | systemV linux, OpExecPath n => SystemV.ExecPath linux n
  end.

(** The definition file of a backend and the name it manages. *)
Definition definition_path (d : Daemon) : string :=
  match d with
  | systemD linux => SystemD.servicePath linux
  | systemV linux => SystemV.servicePath linux
  end.

Definition service_name (d : Daemon) : string :=
  match d with
  | systemD linux => SystemD.name linux
  | systemV linux => SystemV.name linux
  end.

(** ** Vocabulary of the properties *)

Local Open Scope list_scope.

Definition starts_with_digit (s : string) : bool :=
  match s with
  | EmptyString => false
  | String c _ => is_digit c
  end.

(** The pattern [lit([0-9]+)] matches somewhere in [s]. *)
Definition digits_pattern_matches (lit s : string) : Prop :=
  exists pre c rest, is_digit c = true /\ s = pre +:+ lit +:+ String c rest.

(** [d] is what group 1 of [lit([0-9]+)] captures in [s]: the digits after
    the leftmost occurrence of [lit] that is followed by a digit, as many as
    there are. *)
Definition digits_captured (lit s d : string) : Prop :=
  exists pre post,
    s = pre +:+ lit +:+ d +:+ post
    /\ d <> EmptyString
    /\ string_forall is_digit d = true
    /\ starts_with_digit post = false
    /\ forall pre1 c rest,
         is_digit c = true -> s = pre1 +:+ lit +:+ String c rest ->
         String.length pre <= String.length pre1.

(** A pattern made of literal ASCII characters only. *)
Definition literal_pattern (pat : string) : bool :=
  string_forall (fun c => negb (regexp.is_meta c) && is_ascii_byte c) pat.

(** *** Reading a shell script: the clauses of its [case] statement *)

Fixpoint split_lines_go (cur : string) (s : string) : list string :=
  match s with
  | EmptyString => [String.rev cur]
  | String c s' =>
      if Ascii.eqb c (ascii_of_nat 10)
      then String.rev cur :: split_lines_go EmptyString s'
      else split_lines_go (String c cur) s'
  end.

Definition split_lines (s : string) : list string :=
  split_lines_go EmptyString s.

Fixpoint trim_left (s : string) : string :=
  match s with
  | String " "%char s' => trim_left s'
  | _ => s
  end.

Definition ends_with (suffix s : string) : bool :=
  match strip_prefix (String.rev suffix) (String.rev s) with
  | Some _ => true
  | None => false
  end.

Definition drop_last (s : string) : string :=
  match String.rev s with
  | EmptyString => EmptyString
  | String _ r => String.rev r
  end.

(** The patterns of the clauses of the first [case ... in] ... [esac] of a
    script laid out one item per line: a clause starts on the first line
    after the header and after each [;;], with its pattern closed by a
    parenthesis. *)
Fixpoint case_patterns (in_case at_clause : bool) (ls : list string)
    : list string :=
  match ls with
  | [] => []
  | l :: rest =>
      let t := trim_left l in
      if negb in_case then
        if bool_decide (is_Some (strip_prefix "case " t)) && ends_with " in" t
        then case_patterns true true rest
        else case_patterns false false rest
      else if String.eqb t "esac" then []
      else if at_clause then
        if String.eqb t EmptyString then case_patterns true true rest
        else drop_last t :: case_patterns true false rest
      else if String.eqb t ";;" then case_patterns true true rest
      else case_patterns true false rest
  end.

(** The sub-commands a script offers by name: the patterns of its [case]
    statement other than the catch-all. *)
Definition named_subcommands (script : string) : list string :=
  filter (fun p => p <> "*") (case_patterns false false (split_lines script)).

(** *** Sample hosts and parameters, for concrete runs *)

Definition injected : error := ErrUnderlying "injected failure".

(** A host with the given privileges, files, executable path and answer to
    every native command; the calls listed by [bad] fail. *)
Definition host (priv : bool) (files : gmap string node) (exe : string)
    (answer : string * option error) (bad : event -> bool) : World :=
  mkWorld files [] priv
          (fun _ => (exe, None))
          (fun e => if bad e then Some injected else None)
          (fun _ _ => answer)
          (fun _ _ => (false, None)).

Definition no_fault (e : event) : bool := false.

Definition sample_markers : Markers :=
  {| success := " [  OK  ]"; failed := " [FAILED]" |}.

(** *** Relating the world before and after a computation *)

(** [keeps R m]: the world after [m] is related by [R] to the world
    before. *)
Definition keeps {A} (R : World -> World -> Prop) (m : M A) : Prop :=
  forall w, R w (snd (m w)).

(** What no computation changes: the host's parameters stay, and the trace
    only grows. *)
Definition frame (w w' : World) : Prop :=
  privileged w' = privileged w
  /\ executable w' = executable w
  /\ fault w' = fault w
  /\ command w' = command w
  /\ regexp_other w' = regexp_other w
  /\ exists evs, trace w' = trace w ++ evs.

(** A path that names a node still names one. *)
Definition still_there (path : string) (w w' : World) : Prop :=
  is_Some (fs w !! path) -> is_Some (fs w' !! path).

(** Nothing was mutated between [w] and [w']: the file system is the same
    and none of the calls made since creates, writes, re-modes, links or
    deletes a file or runs a native command. *)
Definition no_mutation (w w' : World) : Prop :=
  fs w' = fs w
  /\ exists evs, trace w' = trace w ++ evs
                 /\ forallb (fun e => negb (mutating e)) evs = true.

(** The action messages of the five state-changing operations. *)
Definition action_label (op : operation) : string :=
  match op with
  | OpInstall _ => "Install "
  | OpRemove => "Removing "
  | OpStart => "Starting "
  | OpStop => "Stopping "
  | OpRestart => "Restarting "
  | OpStatus | OpExecPath _ => EmptyString
  end.

Definition service_description (d : Daemon) : string :=
  match d with
  | systemD linux => SystemD.description linux
  | systemV linux => SystemV.description linux
  end.

(** [wp m Q w]: running [m] from [w] gives a result and a world that
    satisfy [Q]. *)
Definition wp {A} (m : M A) (Q : A -> World -> Prop) (w : World) : Prop :=
  Q (fst (m w)) (snd (m w)).

(** The status parser of a backend, and the native command [ExecPath] runs
    for a service name. *)
Definition check_running (d : Daemon) : M (string * bool) :=
  match d with
  | systemD linux => SystemD.checkRunning linux
  | systemV linux => SystemV.checkRunning linux
  end.

Definition execpath_command (d : Daemon) (serviceName : string) : list string :=
  match d with
  | systemD _ => ["systemctl"; "execpath"; serviceName +:+ ".service"]
  | systemV _ => ["service"; serviceName; "execpath"]
  end.

(** The world once the privilege check and the installed check of a backend
    have run. *)
Definition checked (d : Daemon) (w : World) : World :=
  record (EvStat (definition_path d)) (record EvCheckPrivileges w).

(** The registration links of the SysV backend: start links for the
    runlevels 2 to 5 and kill links for the runlevels 0, 1 and 6. *)
Definition start_links (name : string) : list string :=
  map (fun i => "/etc/rc" +:+ i +:+ ".d/S87" +:+ name) ["2"; "3"; "4"; "5"].

Definition kill_links (name : string) : list string :=
  map (fun i => "/etc/rc" +:+ i +:+ ".d/K17" +:+ name) ["0"; "1"; "6"].

(** The init script Install renders for a service, given the path of its
    executable and the extra arguments. *)
Definition init_script (linux : SystemV.systemVRecord) (exe : string)
    (args : list string) : string :=
  match template.Parse SystemV.systemVConfig with
  | Some templ =>
      default EmptyString
        (template.Execute templ
           [("Name", SystemV.name linux); ("Port", SystemV.port linux);
            ("Version", SystemV.version linux);
            ("Description", SystemV.description linux);
            ("Path", exe); ("Args", join " " args)])
  | None => EmptyString
  end.

(** Every field a template refers to is among [keys]. *)
Definition fields_present (keys : list string) (segs : list template.segment)
    : bool :=
  forallb (fun seg =>
    match seg with
    | template.Text _ => true
    | template.Action a =>
        match template.field_of a with
        | Some f => existsb (fun k => String.eqb k f) keys
        | None => false
        end
    end) segs.

(** *** Statements about all hosts, to be tested on concrete ones *)

(** The steps by which Remove undoes an installation. *)
Definition cleanup_steps (d : Daemon) : list event :=
  match d with
  | systemD linux =>
      [EvExec ["systemctl"; "disable"; SystemD.name linux +:+ ".service"];
       EvRemove (SystemD.servicePath linux)]
  | systemV linux =>
      EvRemove (SystemV.servicePath linux)
      :: map EvRemove (start_links (SystemV.name linux)
                       ++ kill_links (SystemV.name linux))
  end.

(** "Once Remove has passed the privilege and installed checks, it attempts
    every cleanup step". *)
Definition Remove_attempts_every_step : Prop :=
  forall (markers : Markers) (d : Daemon) (w : World),
    privileged w = true ->
    is_Some (fs w !! definition_path d) ->
    forall e, e ∈ cleanup_steps d -> e ∈ trace (snd (call d OpRemove w)).

(** "The operation still reports overall success whenever the definition
    file itself was written": the rendered script was written by the call
    and is the content of the definition file. *)
Definition Install_succeeds_once_written : Prop :=
  forall (markers : Markers) (linux : SystemV.systemVRecord)
         (args : list string) (w : World) (exe : string) (mode : N),
    let r := SystemV.Install linux args w in
    let script := init_script linux exe args in
    executable w (SystemV.name linux) = (exe, None) ->
    EvWrite (SystemV.servicePath linux) script ∈ trace (snd r) ->
    fs (snd r) !! SystemV.servicePath linux = Some (File script mode) ->
    snd (fst r) = None.

(** "Every backend method, on every outcome, returns a non-empty
    message". *)
Definition every_message_nonempty : Prop :=
  forall (markers : Markers) (d : Daemon) (op : operation) (w : World),
    fst (fst (call d op w)) <> EmptyString.

(** The service of the examples. *)
Definition foo_V : SystemV.systemVRecord :=
  SystemV.mkRecord "foo" "8080" "1.0" "Foo Service" [].

Definition foo_D : SystemD.systemDRecord :=
  SystemD.mkRecord "foo" "8080" "1.0" "Foo Service" [].

Definition no_files : gmap string node := ∅.

(** A host on which the service is installed. *)
Definition installed_files : gmap string node :=
  <["/etc/init.d/foo" := File "#! /bin/sh" mode_0755]>
    (<["/etc/systemd/system/foo.service" := File "[Unit]" mode_0666]> ∅).

(** *** The lifecycle commands *)

(** The command line a backend runs for a verb of the native tool. *)
Definition action_command (d : Daemon) (verb : string) : list string :=
  match d with
  | systemD linux => ["systemctl"; verb; SystemD.name linux +:+ ".service"]
  | systemV linux => ["service"; SystemV.name linux; verb]
  end.

(** The operations that require the service to be installed. *)
Definition needs_installation (op : operation) : bool :=
  match op with
  | OpInstall _ => false
  | _ => true
  end.

(** The message of an operation that finds the service not installed. *)
Definition not_installed_message {markers : Markers} (d : Daemon)
    (op : operation) : string :=
  match op with
  | OpStatus => "Status could not defined"
  | OpExecPath _ => EmptyString
  | _ => (action_label op +:+ service_description d +:+ ":") +:+ failed
  end.

(** The message and error of an action whose native command returned
    [err]. *)
Definition action_outcome {markers : Markers} (d : Daemon) (op : operation)
    (err : option error) : string * option error :=
  ((action_label op +:+ service_description d +:+ ":")
   +:+ (if is_nil err then success else failed), err).


(** The files are the same. *)
Definition same_files (w w' : World) : Prop := fs w' = fs w.

(** *** Installing *)

(** No file was closed between [w] and [w']. *)
Definition no_close (w w' : World) : Prop :=
  exists evs, trace w' = trace w ++ evs /\ forall q, EvClose q ∉ evs.

(** The outcome of [os.Create] for the definition file of a backend: it is
    created when the privilege check passes, the file is not there and the
    host lets the call through. *)
Definition creates_definition (d : Daemon) (w : World) : bool :=
  privileged w
  && bool_decide (fs w !! definition_path d = None)
  && bool_decide (fault w (EvCreate (definition_path d)) = None).


(** The path [q] names the same node, or none, before and after. *)
Definition untouched (q : string) (w w' : World) : Prop :=
  fs w' !! q = fs w !! q.

(** The unit file Install renders for a service, given the path of its
    executable and the extra arguments. *)
Definition unit_file (linux : SystemD.systemDRecord) (exe : string)
    (args : list string) : string :=
  match template.Parse SystemD.systemDConfig with
  | Some templ =>
      default EmptyString
        (template.Execute templ
           [("Name", SystemD.name linux); ("Port", SystemD.port linux);
            ("Version", SystemD.version linux);
            ("Description", SystemD.description linux);
            ("Dependencies", join " " (SystemD.dependencies linux));
            ("Path", join " " (app [exe] args))])
  | None => EmptyString
  end.

(** The world once the systemd Install has written the unit file: the file
    holds the rendered unit with the mode it was created with. *)
Definition unit_written (linux : SystemD.systemDRecord) (exe : string)
    (args : list string) (w : World) : World :=
  let p := SystemD.servicePath linux in
  record (EvWrite p (unit_file linux exe args))
    (set_fs (<[p := File (unit_file linux exe args) mode_0666]> (fs w))
       (record (EvExecutablePath (SystemD.name linux))
          (record (EvCreate p) (checked (systemD linux) w)))).


(** The node [nd] at the path [q] is still there, unchanged. *)
Definition preserved (q : string) (nd : node) (w w' : World) : Prop :=
  fs w !! q = Some nd -> fs w' !! q = Some nd.

(** The path [q], when it names nothing, still names nothing. *)
Definition still_absent (q : string) (w w' : World) : Prop :=
  fs w !! q = None -> fs w' !! q = None.

(** *** Where a template puts a field *)

Fixpoint has_suffix (p t : string) : bool :=
  String.eqb t p
  || match t with
     | EmptyString => false
     | String _ t' => has_suffix p t'
     end.

(** The template starts with a text ending in [p1], the field [f], and a
    text starting with [p2]. *)
Definition field_here (f p1 p2 : string) (segs : list template.segment)
    : bool :=
  match segs with
  | template.Text t1 :: template.Action a :: template.Text t2 :: _ =>
      has_suffix p1 t1
      && bool_decide (template.field_of a = Some f)
      && bool_decide (is_Some (strip_prefix p2 t2))
  | _ => false
  end.

(** Somewhere the template puts the field [f] between [p1] and [p2]. *)
Fixpoint field_between (f p1 p2 : string) (segs : list template.segment)
    : bool :=
  field_here f p1 p2 segs
  || match segs with
     | [] => false
     | _ :: rest => field_between f p1 p2 rest
     end.

(** A host with no file where the executable cannot be resolved. *)
Definition lost_host : World :=
  mkWorld no_files [] true
          (fun _ => (EmptyString, Some injected))
          (fun _ => None)
          (fun _ _ => (EmptyString, None))
          (fun _ _ => (false, None)).

(** * Properties *)

(** ** Strings and patterns *)

#[local] Arguments String.append !_ _ : simpl nomatch.

Lemma strip_prefix_Some p s r :
  strip_prefix p s = Some r <-> s = p +:+ r.
Proof.
  revert s. induction p as [|a p IH]; intros s; simpl.
  - split; congruence.
  - destruct s as [|b s]; [split; discriminate|].
    destruct (Ascii.eqb_spec a b) as [->|Hne].
    + rewrite IH. split; congruence.
    + split; [discriminate | congruence].
Qed.

Lemma contains_spec pat s :
  contains pat s = true <-> substring_of pat s.
Proof.
  induction s as [|c s IH]; simpl.
  - destruct (strip_prefix pat EmptyString) as [r|] eqn:E.
    + split; [intros _ | done].
      apply strip_prefix_Some in E. by exists EmptyString, r.
    + split; [done|]. intros (pre & post & H).
      destruct pre; [|discriminate]. simpl in H.
      apply strip_prefix_Some in H. congruence.
  - destruct (strip_prefix pat (String c s)) as [r|] eqn:E.
    + split; [intros _ | done].
      apply strip_prefix_Some in E. by exists EmptyString, r.
    + rewrite IH. split.
      * intros (pre & post & ->). by exists (String c pre), post.
      * intros (pre & post & H). destruct pre as [|c' pre]; simpl in H.
        -- apply strip_prefix_Some in H. congruence.
        -- injection H as -> ->. by exists pre, post.
Qed.

Lemma span_digits_spec s d r :
  span_digits s = (d, r) ->
  s = d +:+ r /\ string_forall is_digit d = true /\ starts_with_digit r = false.
Proof.
  revert d r. induction s as [|c s IH]; intros d r; simpl.
  - intros [= <- <-]. done.
  - destruct (is_digit c) eqn:Hc.
    + destruct (span_digits s) as [d' r'].
      intros [= <- <-]. destruct (IH _ _ eq_refl) as (-> & Hd & Hr).
      simpl. by rewrite Hc, Hd.
    + intros [= <- <-]. simpl. by rewrite Hc.
Qed.

Lemma span_digits_digit c s :
  is_digit c = true -> fst (span_digits (String c s)) <> EmptyString.
Proof. intros Hc. simpl. rewrite Hc. by destruct (span_digits s). Qed.

Lemma compile_literal pat :
  literal_pattern pat = true ->
  exists r, regexp.compile pat = Some r
            /\ regexp.has_dot r = false
            /\ forall s, regexp.match_here r s
                         = match strip_prefix pat s with
                           | Some _ => true
                           | None => false
                           end.
Proof.
  induction pat as [|c pat IH]; simpl.
  - intros _. by exists [].
  - intros [[Hm Ha]%andb_prop Hp]%andb_prop.
    destruct (IH Hp) as (r & Hr & Hd & Hmatch).
    assert (Ascii.eqb c "." = false) as ->.
    { destruct (Ascii.eqb_spec c "."); [subst; discriminate | done]. }
    apply negb_true_iff in Hm. rewrite Hm, Ha. simpl. rewrite Hr. simpl.
    exists (regexp.Lit c :: r). repeat split; [done|].
    intros [|b s]; simpl; [done|].
    destruct (Ascii.eqb c b); simpl; [apply Hmatch | done].
Qed.

Lemma search_literal r pat s :
  (forall s, regexp.match_here r s
             = match strip_prefix pat s with Some _ => true | None => false end) ->
  regexp.search r s = contains pat s.
Proof.
  intros Hm. induction s as [|c s IH].
  - unfold regexp.search, contains. rewrite Hm.
    by destruct (strip_prefix pat EmptyString).
  - change (regexp.search r (String c s))
      with (regexp.match_here r (String c s) || regexp.search r s).
    change (contains pat (String c s))
      with (match strip_prefix pat (String c s) with
            | Some _ => true
            | None => contains pat s
            end).
    rewrite Hm, IH. by destruct (strip_prefix pat (String c s)).
Qed.

(** On a literal pattern [regexp.MatchString] is substring search, and
    compilation cannot fail. *)
Lemma MatchString_literal other pat s :
  literal_pattern pat = true ->
  regexp.MatchString other pat s = (contains pat s, None).
Proof.
  intros (r & Hr & Hd & Hm)%compile_literal.
  unfold regexp.MatchString. rewrite Hr, Hd. simpl.
  by rewrite (search_literal r pat s Hm).
Qed.

Lemma FindStringSubmatch_digits_unfold lit s :
  regexp.FindStringSubmatch_digits lit s =
  let next :=
    match s with
    | EmptyString => []
    | String _ s' => regexp.FindStringSubmatch_digits lit s'
    end in
  match strip_prefix lit s with
  | Some rest =>
      match span_digits rest with
      | (EmptyString, _) => next
      | (d, _) => [lit +:+ d; d]
      end
  | None => next
  end.
Proof. by destruct s. Qed.

(** Whether [lit([0-9]+)] matches at the very start of [s]. *)
Lemma match_at_start lit s :
  (exists c rest, is_digit c = true /\ s = lit +:+ String c rest) <->
  exists rest, strip_prefix lit s = Some rest
               /\ fst (span_digits rest) <> EmptyString.
Proof.
  split.
  - intros (c & rest & Hc & ->). exists (String c rest). split.
    + by apply strip_prefix_Some.
    + by apply span_digits_digit.
  - intros (rest & ->%strip_prefix_Some & Hd).
    destruct rest as [|c rest]; simpl in Hd; [done|].
    destruct (is_digit c) eqn:Hc; [|done]. by exists c, rest.
Qed.

Lemma no_match_later lit a s :
  ~ (exists c rest, is_digit c = true /\ String a s = lit +:+ String c rest) ->
  ~ digits_pattern_matches lit s ->
  ~ digits_pattern_matches lit (String a s).
Proof.
  intros H0 Hs (pre & c & rest & Hc & E). destruct pre as [|b pre]; simpl in E.
  - apply H0. by exists c, rest.
  - injection E as _ ->. apply Hs. by exists pre, c, rest.
Qed.

Lemma captured_later lit a s d :
  ~ (exists c rest, is_digit c = true /\ String a s = lit +:+ String c rest) ->
  digits_captured lit s d ->
  digits_captured lit (String a s) d.
Proof.
  intros H0 (pre & post & -> & Hne & Hd & Hpost & Hleft).
  exists (String a pre), post. repeat split; try done.
  intros pre1 c rest Hc E. destruct pre1 as [|b pre1]; simpl in E.
  - exfalso. apply H0. by exists c, rest.
  - injection E as _ E. simpl. apply le_n_S. by eapply Hleft.
Qed.

Lemma captured_at_start lit rest d r :
  span_digits rest = (d, r) -> d <> EmptyString ->
  digits_captured lit (lit +:+ rest) d.
Proof.
  intros (-> & Hd & Hr)%span_digits_spec Hne.
  exists EmptyString, r. repeat split; try done.
  intros. simpl. lia.
Qed.

(** What [FindStringSubmatch] returns for [lit([0-9]+)]: nothing when the
    pattern matches nowhere, else the whole match and the captured
    digits. *)
Lemma FindStringSubmatch_digits_spec lit s :
  match regexp.FindStringSubmatch_digits lit s with
  | [] => ~ digits_pattern_matches lit s
  | [m; d] => m = lit +:+ d /\ digits_captured lit s d
  | _ => False
  end.
Proof.
  induction s as [|a s IH]; rewrite FindStringSubmatch_digits_unfold; cbv zeta.
  - assert (~ digits_pattern_matches lit EmptyString) as Hno.
    { intros (pre & c & rest & _ & E). destruct pre; [|done]. simpl in E.
      destruct lit; discriminate. }
    destruct (strip_prefix lit EmptyString) as [rest|] eqn:E; [|done].
    destruct (span_digits rest) as [[|c d] r] eqn:Es; [done|].
    apply strip_prefix_Some in E. destruct lit; [|done]. simpl in E. subst.
    discriminate.
  - destruct (strip_prefix lit (String a s)) as [rest|] eqn:E.
    + destruct (span_digits rest) as [d r] eqn:Es.
      destruct d as [|c d].
      * assert (~ (exists c rest, is_digit c = true
                                  /\ String a s = lit +:+ String c rest)) as H0.
        { intros (rest' & E' & Hd)%match_at_start.
          rewrite E in E'. injection E' as <-. by rewrite Es in Hd. }
        destruct (regexp.FindStringSubmatch_digits lit s) as [|m [|d' [|]]];
          try done.
        -- by apply no_match_later.
        -- destruct IH as [-> IH]. split; [done|]. by apply captured_later.
      * split; [done|]. apply strip_prefix_Some in E as ->.
        by eapply captured_at_start.
    + assert (~ (exists c rest, is_digit c = true
                                /\ String a s = lit +:+ String c rest)) as H0.
      { intros (rest' & E' & Hd)%match_at_start. congruence. }
      destruct (regexp.FindStringSubmatch_digits lit s) as [|m [|d' [|]]];
        try done.
      * by apply no_match_later.
      * destruct IH as [-> IH]. split; [done|]. by apply captured_later.
Qed.

Lemma append_inj_length (a b x y : string) :
  a +:+ x = b +:+ y -> String.length a = String.length b -> a = b /\ x = y.
Proof.
  revert b. induction a as [|c a IH]; intros [|c' b]; simpl; try done.
  intros [= -> E] [= Hl]. destruct (IH _ E Hl) as [-> ->]. done.
Qed.

Lemma digit_run_unique (d1 d2 post1 post2 : string) :
  string_forall is_digit d1 = true -> string_forall is_digit d2 = true ->
  starts_with_digit post1 = false -> starts_with_digit post2 = false ->
  d1 +:+ post1 = d2 +:+ post2 -> d1 = d2.
Proof.
  revert d2. induction d1 as [|c d1 IH]; intros [|c' d2]; simpl; try done.
  - intros _ [Hc _]%andb_prop Hp _ ->. simpl in Hp. congruence.
  - intros [Hc _]%andb_prop _ _ Hp <-. simpl in Hp. congruence.
  - intros [_ H1]%andb_prop [_ H2]%andb_prop Hp1 Hp2 [= -> E].
    f_equal. by eapply IH.
Qed.

(** Group 1 is determined by the subject. *)
Lemma digits_captured_unique lit s d1 d2 :
  digits_captured lit s d1 -> digits_captured lit s d2 -> d1 = d2.
Proof.
  intros (pre1 & post1 & E1 & Hn1 & Hd1 & Hp1 & Hl1)
         (pre2 & post2 & E2 & Hn2 & Hd2 & Hp2 & Hl2).
  assert (String.length pre1 = String.length pre2) as Hlen.
  { apply Nat.le_antisymm.
    - destruct d2 as [|c d2]; [done|]. simpl in Hd2.
      apply andb_prop in Hd2 as [Hc _]. by eapply (Hl1 pre2 c (d2 +:+ post2)).
    - destruct d1 as [|c d1]; [done|]. simpl in Hd1.
      apply andb_prop in Hd1 as [Hc _]. by eapply (Hl2 pre1 c (d1 +:+ post1)). }
  rewrite E1 in E2. apply append_inj_length in E2 as [_ E2]; [|done].
  apply append_inj_length in E2 as [_ E2]; [|done].
  exact (digit_run_unique d1 d2 post1 post2 Hd1 Hd2 Hp1 Hp2 E2).
Qed.

(** ** The status parsers *)

Section parsers.
Context {markers : Markers}.

(** C2. The systemd status parser runs the native status command once and
    nothing else.  It reports running exactly when the command succeeded
    and its output contains the substring [Active: active]; when running,
    it reports the digits captured by [Main PID: <digits>] if that pattern
    matches and a plain running message if it does not; in every other
    case it reports stopped.  It has no error result.  On the output
    [Active: active], newline, [Main PID: 4321] the message carries
    4321. *)
Theorem systemd_checkRunning_parser (linux : SystemD.systemDRecord) (w : World) :
  let argv := ["systemctl"; "status"; SystemD.name linux +:+ ".service"] in
  let output := fst (command w (trace w) argv) in
  let err := snd (command w (trace w) argv) in
  let msg := fst (fst (SystemD.checkRunning linux w)) in
  let running := snd (fst (SystemD.checkRunning linux w)) in
  snd (SystemD.checkRunning linux w) = record (EvExec argv) w
  /\ (running = true <-> err = None /\ substring_of "Active: active" output)
  /\ (running = true -> digits_pattern_matches "Main PID: " output ->
      exists d, digits_captured "Main PID: " output d
                /\ msg = "Service " +:+ SystemD.name linux +:+ " (pid  "
                         +:+ d +:+ ") is running...")
  /\ (running = true -> forall d, digits_captured "Main PID: " output d ->
      msg = "Service " +:+ SystemD.name linux +:+ " (pid  "
            +:+ d +:+ ") is running...")
  /\ (running = true -> ~ digits_pattern_matches "Main PID: " output ->
      msg = "Service " +:+ SystemD.name linux +:+ " is running...")
  /\ (running = false ->
      msg = "Service " +:+ SystemD.name linux +:+ " is stopped")
  /\ (err = None ->
      output = "Active: active" +:+ nl +:+ "Main PID: 4321" ->
      running = true
      /\ msg = "Service " +:+ SystemD.name linux
               +:+ " (pid  4321) is running...").
Proof.
  cbv zeta. unfold SystemD.checkRunning, exec_Output, regexp_MatchString,
    get_world, bind, ret.
  destruct (command w (trace w) _) as [output err]. cbn beta iota delta [fst snd].
  destruct err as [e|]; cbn beta iota delta [is_nil].
  { cbn [fst snd]. repeat split; try done. by intros [? _]. }
  rewrite MatchString_literal by reflexivity. cbn beta iota delta [is_nil andb].
  destruct (contains "Active: active" output) eqn:Hc.
  - pose proof (FindStringSubmatch_digits_spec "Main PID: " output) as Hf.
    assert (substring_of "Active: active" output) as Hsub
        by by apply contains_spec.
    destruct (regexp.FindStringSubmatch_digits "Main PID: " output)
      as [|m [|d [|]]] eqn:Ef; try done; cbn [length Nat.ltb Nat.leb fst snd nth].
    + split_and!; try done.
      * intros _ d (pre & post & -> & Hne & Hd & _). exfalso. apply Hf.
        destruct d as [|c d]; [done|]. simpl in Hd.
        apply andb_prop in Hd as [Hc' _]. by exists pre, c, (d +:+ post).
      * intros _ E. exfalso. subst output. by vm_compute in Ef.
    + destruct Hf as [-> Hf]. split_and!; try done.
      * intros _ _. by exists d.
      * intros _ d' Hd'. by rewrite (digits_captured_unique _ _ _ _ Hd' Hf).
      * intros _ Hn. exfalso. apply Hn.
        destruct Hf as (pre & post & -> & Hne & Hd & _).
        destruct d as [|c d]; [done|]. simpl in Hd.
        apply andb_prop in Hd as [Hc' _]. by exists pre, c, (d +:+ post).
      * intros _ E. subst output. vm_compute in Ef. by injection Ef as _ <-.
  - cbn [fst snd]. split_and!; try done.
    + split; [done|]. intros [_ Hs%contains_spec]. congruence.
    + intros _ ->. by vm_compute in Hc.
Qed.

End parsers.

Section parsers_sysv.
Context {markers : Markers}.


End parsers_sysv.

(** C3. The SysV status parser hands the service name to the pattern
    matcher as a pattern, not as a literal.  For the service [web.api] and
    the status output [Service web-api (pid  99) is running...], which does
    not contain the name, it reports running with pid 99: the dot of the
    name matches the dash. *)
Theorem sysv_checkRunning_name_as_pattern :
  let linux := SystemV.mkRecord "web.api" "8080" "1.0" "Web API" [] in
  let output := "Service web-api (pid  99) is running..." in
  let w := host true ∅ "/usr/bin/web" (output, None) no_fault in
  fst (SystemV.checkRunning linux w)
    = ("Service web.api (pid  99) is running...", true)
  /\ ~ substring_of (SystemV.name linux) output.
Proof.
  cbv zeta. split.
  - vm_compute. reflexivity.
  - intros H%contains_spec. by vm_compute in H.
Qed.

(** The example of the SysV parser: from [Service foo (pid  99) is
    running...] it extracts 99. *)
Lemma sysv_checkRunning_example :
  let linux := SystemV.mkRecord "foo" "8080" "1.0" "Foo Service" [] in
  let w := host true ∅ "/usr/bin/foo"
             ("Service foo (pid  99) is running...", None) no_fault in
  fst (SystemV.checkRunning linux w)
    = ("Service foo (pid  99) is running...", true).
Proof. vm_compute. reflexivity. Qed.

(** ** Backend selection *)

(** C8. Construction probes the host once, with [os.Stat] on
    [/run/systemd/system], and does nothing else.  When the directory
    exists the systemd backend is chosen, otherwise the SysV backend; the
    error is nil and the five descriptor fields are stored unchanged. *)
Theorem newDaemon_single_probe (name port version description : string)
    (dependencies : list string) (w : World) :
  newDaemon name port version description dependencies w =
  ((match fs w !! "/run/systemd/system" with
    | Some _ =>
        systemD (SystemD.mkRecord name port version description dependencies)
    | None =>
        systemV (SystemV.mkRecord name port version description dependencies)
    end, None),
   record (EvStat "/run/systemd/system") w).
Proof.
  unfold newDaemon, os_Stat, bind, ret.
  by destruct (fs w !! "/run/systemd/system").
Qed.

(** ** The init-script template *)

(** C9. The init-script template parses, and rendered with name foo, port
    8080, version 1.0, description Foo Service, path /usr/bin/foo and
    arguments --x it gives a script that contains [exec="/usr/bin/foo"] and
    [port="8080"] and whose case statement names exactly the sub-commands
    start, stop, restart, status, version, description and execpath.  This
    script is what Install writes to the definition file. *)
Theorem init_script_rendering :
  exists templ script,
    template.Parse SystemV.systemVConfig = Some templ
    /\ template.Execute templ
         [("Name", "foo"); ("Port", "8080"); ("Version", "1.0");
          ("Description", "Foo Service"); ("Path", "/usr/bin/foo");
          ("Args", "--x")] = Some script
    /\ substring_of ("exec=" +:+ dq +:+ "/usr/bin/foo" +:+ dq) script
    /\ substring_of ("port=" +:+ dq +:+ "8080" +:+ dq) script
    /\ named_subcommands script
       = ["start"; "stop"; "restart"; "status"; "version"; "description";
          "execpath"]
    /\ forall markers : Markers,
         let linux := SystemV.mkRecord "foo" "8080" "1.0" "Foo Service" [] in
         let w := host true ∅ "/usr/bin/foo" (EmptyString, None) no_fault in
         fs (snd (SystemV.Install linux ["--x"] w)) !! "/etc/init.d/foo"
         = Some (File script mode_0755).
Proof.
  eexists _, _. split; [vm_compute; reflexivity|].
  split; [vm_compute; reflexivity|].
  split; [apply contains_spec; vm_compute; reflexivity|].
  split; [apply contains_spec; vm_compute; reflexivity|].
  split; [vm_compute; reflexivity|].
  intros markers. vm_compute. reflexivity.
Qed.

(** ** Running computations *)

Lemma bind_run {A B} (m : M A) (k : A -> M B) w :
  bind m k w = k (fst (m w)) (snd (m w)).
Proof. unfold bind. by destruct (m w). Qed.

Lemma wp_bind {A B} (m : M A) (k : A -> M B) Q w :
  wp (bind m k) Q w <-> wp m (fun a w1 => wp (k a) Q w1) w.
Proof. unfold wp. by rewrite bind_run. Qed.

Lemma wp_ret {A} (a : A) Q w : wp (ret a) Q w <-> Q a w.
Proof. done. Qed.

Lemma wp_any {A} (m : M A) (Q : A -> World -> Prop) w :
  (forall a w', Q a w') -> wp m Q w.
Proof. intros H. apply H. Qed.

Lemma wp_defer_any {A} p (body : M A) (Q : A -> World -> Prop) w :
  wp body (fun r _ => forall w', Q r w') w -> wp (defer_Close p body) Q w.
Proof. unfold wp, defer_Close. rewrite !bind_run. intros H. apply H. Qed.

Lemma wp_keeps {A} (R : World -> World -> Prop) (m : M A) (Q : A -> World -> Prop) w :
  keeps R m -> (forall a w', R w w' -> Q a w') -> wp m Q w.
Proof. intros Hk HQ. apply HQ, Hk. Qed.

Lemma syscall_trace e step w :
  trace (snd (syscall e step w)) = trace w ++ [e].
Proof.
  unfold syscall. destruct (fault w e); [done|]. by destruct (step (fs w)).
Qed.

#[local] Instance frame_refl : Reflexive frame.
Proof. intros w. unfold frame. split_and!; try done. exists []. by rewrite app_nil_r. Qed.

#[local] Instance frame_trans : Transitive frame.
Proof.
  intros w1 w2 w3 (?&?&?&?&?&evs1&E1) (?&?&?&?&?&evs2&E2).
  unfold frame. split_and!; try congruence.
  exists (evs1 ++ evs2). by rewrite E2, E1, <- app_assoc.
Qed.

#[local] Instance still_there_refl p : Reflexive (still_there p).
Proof. intros w H. exact H. Qed.

#[local] Instance still_there_trans p : Transitive (still_there p).
Proof. intros w1 w2 w3 H1 H2 H. by apply H2, H1. Qed.

Section keeps.
Context (R : World -> World -> Prop) `{!Reflexive R, !Transitive R}.

Lemma keeps_ret {A} (a : A) : keeps R (ret a).
Proof. intros w. simpl. reflexivity. Qed.

Lemma keeps_bind {A B} (m : M A) (k : A -> M B) :
  keeps R m -> (forall a, keeps R (k a)) -> keeps R (bind m k).
Proof.
  intros Hm Hk w. rewrite bind_run. etransitivity; [apply Hm | apply Hk].
Qed.

Lemma keeps_for_each {A} (l : list A) (body : A -> M unit) :
  (forall x, keeps R (body x)) -> keeps R (for_each l body).
Proof.
  intros Hb. induction l as [|x l IH]; simpl.
  - apply keeps_ret.
  - apply keeps_bind; [apply Hb | done].
Qed.

Lemma keeps_get_world : keeps R get_world.
Proof. intros w. simpl. reflexivity. Qed.
End keeps.

Lemma frame_record e w : frame w (record e w).
Proof. unfold frame. simpl. split_and!; try done. by exists [e]. Qed.

Lemma frame_set_fs f w : frame w (set_fs f w).
Proof. unfold frame. simpl. split_and!; try done. exists []. by rewrite app_nil_r. Qed.

Lemma frame_syscall e step : keeps frame (syscall e step).
Proof.
  intros w. unfold syscall. destruct (fault w e); [apply frame_record|].
  destruct (step (fs w)); simpl; [apply frame_record|].
  etransitivity; [apply (frame_set_fs g) | apply frame_record].
Qed.

Lemma frame_os_Stat p : keeps frame (os_Stat p).
Proof. intros w. apply frame_record. Qed.

Lemma frame_file_Close p : keeps frame (file_Close p).
Proof. intros w. apply frame_record. Qed.

Lemma frame_exec_Output argv : keeps frame (exec_Output argv).
Proof. intros w. apply frame_record. Qed.

Lemma frame_checkPrivileges : keeps frame checkPrivileges.
Proof. intros w. apply frame_record. Qed.

Lemma frame_executablePath n : keeps frame (executablePath n).
Proof. intros w. apply frame_record. Qed.

Lemma frame_os_Create p : keeps frame (os_Create p).
Proof. apply frame_syscall. Qed.

Lemma frame_file_Write p data : keeps frame (file_Write p data).
Proof. apply frame_syscall. Qed.

Lemma frame_os_Chmod p m : keeps frame (os_Chmod p m).
Proof. apply frame_syscall. Qed.

Lemma frame_os_Symlink o n : keeps frame (os_Symlink o n).
Proof. apply frame_syscall. Qed.

Lemma frame_os_Remove p : keeps frame (os_Remove p).
Proof. apply frame_syscall. Qed.

(** No call but [os.Remove] makes a path disappear. *)
Lemma still_there_syscall q e step :
  (forall f g, step f = inr g -> is_Some (f !! q) -> is_Some (g !! q)) ->
  keeps (still_there q) (syscall e step).
Proof.
  intros Hstep w Hq. unfold syscall. destruct (fault w e); [done|].
  destruct (step (fs w)) eqn:E; [done|]. simpl. by eapply Hstep.
Qed.

Lemma still_there_os_Create q p : keeps (still_there q) (os_Create p).
Proof.
  apply still_there_syscall. intros f g Hg Hq.
  destruct (f !! p) as [[]|]; simplify_eq;
    (destruct (decide (p = q)) as [->|];
     [rewrite lookup_insert_eq | rewrite lookup_insert_ne]; eauto).
Qed.

Lemma still_there_file_Write q p data : keeps (still_there q) (file_Write p data).
Proof.
  apply still_there_syscall. intros f g Hg Hq.
  destruct (f !! p) as [[]|]; simplify_eq.
  destruct (decide (p = q)) as [->|];
    [rewrite lookup_insert_eq | rewrite lookup_insert_ne]; eauto.
Qed.

Lemma still_there_os_Chmod q p m : keeps (still_there q) (os_Chmod p m).
Proof.
  apply still_there_syscall. intros f g Hg Hq.
  destruct (f !! p) as [[]|]; simplify_eq; try done.
  destruct (decide (p = q)) as [->|];
    [rewrite lookup_insert_eq | rewrite lookup_insert_ne]; eauto.
Qed.

Lemma still_there_os_Symlink q o n : keeps (still_there q) (os_Symlink o n).
Proof.
  apply still_there_syscall. intros f g Hg Hq.
  destruct (f !! n) eqn:E; simplify_eq.
  destruct (decide (n = q)) as [->|];
    [rewrite lookup_insert_eq | rewrite lookup_insert_ne]; eauto.
Qed.

Lemma still_there_record q e w : still_there q w (record e w).
Proof. by intros H. Qed.

Lemma still_there_os_Stat q p : keeps (still_there q) (os_Stat p).
Proof. intros w. apply still_there_record. Qed.

Lemma still_there_file_Close q p : keeps (still_there q) (file_Close p).
Proof. intros w. apply still_there_record. Qed.

Lemma still_there_exec_Output q argv : keeps (still_there q) (exec_Output argv).
Proof. intros w. apply still_there_record. Qed.

Lemma still_there_checkPrivileges q : keeps (still_there q) checkPrivileges.
Proof. intros w. apply still_there_record. Qed.

Lemma still_there_executablePath q n : keeps (still_there q) (executablePath n).
Proof. intros w. apply still_there_record. Qed.

Create HintDb keeps discriminated.
#[local] Hint Resolve frame_os_Stat frame_file_Close frame_exec_Output
  frame_checkPrivileges frame_executablePath frame_os_Create frame_file_Write
  frame_os_Chmod frame_os_Symlink frame_os_Remove
  still_there_os_Stat still_there_file_Close still_there_exec_Output
  still_there_checkPrivileges still_there_executablePath still_there_os_Create
  still_there_file_Write still_there_os_Chmod still_there_os_Symlink : keeps.

(** Decompose a computation into its primitive steps. *)
Ltac keeps_step :=
  lazymatch goal with
  | |- keeps _ (bind _ _) => apply keeps_bind; [try tc_solve.. | | intros ?]
  | |- keeps _ (ret _) => apply keeps_ret; tc_solve
  | |- keeps _ get_world => apply keeps_get_world; tc_solve
  | |- keeps _ (for_each _ _) => apply keeps_for_each; [try tc_solve.. | intros ?]
  | |- keeps _ (match ?x with _ => _ end) => destruct x
  | |- keeps _ _ => solve [eauto with keeps]
  end.

Ltac unfold_methods :=
  unfold SystemD.Install, SystemD.Remove, SystemD.Start, SystemD.Stop,
    SystemD.Restart, SystemD.Status, SystemD.ExecPath,
    SystemV.Install, SystemV.Remove, SystemV.Start, SystemV.Stop,
    SystemV.Restart, SystemV.Status, SystemV.ExecPath.

Ltac keeps_tac :=
  unfold SystemD.isInstalled, SystemV.isInstalled,
    SystemD.checkRunning, SystemV.checkRunning,
    defer_Close, template_Execute, exec_Run, regexp_MatchString;
  repeat keeps_step.

Lemma guard_run {A} (k : bool * option error -> M A) w :
  bind checkPrivileges k w
  = k (if privileged w then (true, None)
       else (false, Some ErrPermissionDenied))
      (record EvCheckPrivileges w).
Proof. done. Qed.

Lemma systemd_isInstalled_run {A} linux (k : bool -> M A) w :
  bind (SystemD.isInstalled linux) k w
  = k (bool_decide (is_Some (fs w !! SystemD.servicePath linux)))
      (record (EvStat (SystemD.servicePath linux)) w).
Proof.
  unfold SystemD.isInstalled, bind, os_Stat, ret.
  destruct (fs w !! SystemD.servicePath linux) eqn:E; cbn [is_nil].
  - rewrite bool_decide_eq_true_2; eauto.
  - rewrite bool_decide_eq_false_2; [done | by intros [? ?]].
Qed.

Lemma sysv_isInstalled_run {A} linux (k : bool -> M A) w :
  bind (SystemV.isInstalled linux) k w
  = k (bool_decide (is_Some (fs w !! SystemV.servicePath linux)))
      (record (EvStat (SystemV.servicePath linux)) w).
Proof.
  unfold SystemV.isInstalled, bind, os_Stat, ret.
  destruct (fs w !! SystemV.servicePath linux) eqn:E; cbn [is_nil].
  - rewrite bool_decide_eq_true_2; eauto.
  - rewrite bool_decide_eq_false_2; [done | by intros [? ?]].
Qed.

(** Run the privilege check and the installed check of an operation. *)
Ltac run_checks Hp :=
  unfold_methods; rewrite guard_run, Hp; cbn beta iota delta [negb];
  rewrite ?systemd_isInstalled_run, ?sysv_isInstalled_run;
  cbn [record fs].

(** Follow a computation along every outcome of its calls. *)
Ltac wp_any_step :=
  lazymatch goal with
  | |- wp (bind _ _) _ _ => apply wp_bind, wp_any; intros ? ?
  | |- wp (ret _) _ _ => apply wp_ret; intros; cbn [fst snd is_nil]
  | |- wp (defer_Close _ _) _ _ => apply wp_defer_any
  | |- wp (match ?x with _ => _ end) _ _ => destruct x
  end.

Section lifecycle.
Context {markers : Markers}.

Lemma frame_call d op : keeps frame (call d op).
Proof. destruct d, op; cbn [call]; unfold_methods; keeps_tac. Qed.

(** Install deletes nothing. *)
Lemma still_there_Install q d args :
  keeps (still_there q) (call d (OpInstall args)).
Proof. destruct d; cbn [call]; unfold_methods; keeps_tac. Qed.

Lemma guard_then {A} (k : bool * option error -> M A) w :
  (forall a, keeps frame (k a)) ->
  exists evs,
    trace (snd (bind checkPrivileges k w)) = trace w ++ EvCheckPrivileges :: evs.
Proof.
  intros Hk. rewrite bind_run.
  destruct (Hk (fst (checkPrivileges w)) (snd (checkPrivileges w)))
    as (_ & _ & _ & _ & _ & evs & E).
  exists evs. rewrite E. simpl. by rewrite <- app_assoc.
Qed.

(** C4. Every operation of every backend starts with the privilege
    check: it is the first call recorded, whatever the outcome.  When it
    denies access the operation returns the PermissionDenied error and the
    world is the one before the call with the check recorded: the file
    system is unchanged and no other call was made, so no file was
    created, deleted, re-moded or linked and no native command was run. *)
Theorem privilege_guard_first (d : Daemon) (op : operation) (w : World) :
  (exists evs,
     trace (snd (call d op w)) = trace w ++ EvCheckPrivileges :: evs)
  /\ (privileged w = false ->
      snd (fst (call d op w)) = Some ErrPermissionDenied
      /\ snd (call d op w) = record EvCheckPrivileges w
      /\ no_mutation w (snd (call d op w))).
Proof.
  split.
  - destruct d, op; cbn [call]; unfold_methods;
      apply guard_then; intros [ok err]; keeps_tac.
  - intros Hp.
    assert (call d op w
            = ((fst (fst (call d op w)), Some ErrPermissionDenied),
               record EvCheckPrivileges w)) as ->.
    { destruct d, op; cbn [call]; unfold_methods;
        rewrite bind_run; unfold checkPrivileges; rewrite Hp; done. }
    cbn [fst snd]. split_and!; try done.
    split; [done|]. by exists [EvCheckPrivileges].
Qed.

Lemma os_Create_ok p w :
  fst (os_Create p w) = None -> is_Some (fs (snd (os_Create p w)) !! p).
Proof.
  unfold os_Create, syscall. destruct (fault w _); [done|].
  destruct (fs w !! p) as [[]|]; simpl; try done;
    rewrite lookup_insert_eq; eauto.
Qed.

(** An installation that reports no error had the privileges and leaves
    the definition file in place. *)
Lemma Install_ok d args w :
  snd (fst (call d (OpInstall args) w)) = None ->
  privileged w = true
  /\ is_Some (fs (snd (call d (OpInstall args) w)) !! definition_path d).
Proof.
  change (wp (call d (OpInstall args))
            (fun r w' => snd r = None ->
               privileged w = true /\ is_Some (fs w' !! definition_path d)) w).
  destruct d as [linux|linux]; cbn [call definition_path]; unfold_methods;
    (apply wp_bind; unfold wp at 1, checkPrivileges; cbn [fst snd];
     destruct (privileged w); [|done]; cbn [negb];
     unfold SystemD.isInstalled, SystemV.isInstalled;
     apply wp_bind, wp_bind; unfold wp at 1, os_Stat; cbn [fst snd];
     apply wp_ret; cbn [record fs];
     match goal with |- context [fs w !! ?p] => destruct (fs w !! p) end;
     cbn [is_nil]; [done|];
     apply wp_bind; unfold wp at 1;
     match goal with |- context [os_Create ?p ?w0] =>
       pose proof (os_Create_ok p w0) as Hc;
       destruct (fst (os_Create p w0)); [done|];
       specialize (Hc eq_refl);
       generalize dependent (snd (os_Create p w0));
       intros w1 Hc;
       apply (wp_keeps (still_there p));
         [keeps_tac | intros a w' Hs _; split; [done | by apply Hs]]
     end).
Qed.

(** What an operation does up to the installed check: with privileges,
    the definition file of the backend is looked up, and nothing else. *)
Lemma Install_installed d args w :
  privileged w = true -> is_Some (fs w !! definition_path d) ->
  call d (OpInstall args) w
  = ((("Install " +:+ service_description d +:+ ":") +:+ failed,
      Some ErrAlreadyInstalled), checked d w).
Proof.
  intros Hp Hf.
  destruct d as [linux|linux]; cbn [call definition_path] in *;
    run_checks Hp; by rewrite bool_decide_eq_true_2.
Qed.

Lemma no_mutation_checked d w : no_mutation w (checked d w).
Proof.
  split; [done|]. exists [EvCheckPrivileges; EvStat (definition_path d)].
  split; [|done]. unfold checked. cbn. by rewrite <- app_assoc.
Qed.

(** C5. With the privileges held, Install on a host where the definition
    file of the backend exists returns the AlreadyInstalled error, and
    the world is the one before the call with the privilege check and the
    lookup of the definition file recorded: no file and no other state
    was touched.  In particular an Install right after an Install that
    reported no error returns AlreadyInstalled and changes nothing. *)
Theorem Install_twice (d : Daemon) (args args' : list string) (w : World) :
  (privileged w = true -> is_Some (fs w !! definition_path d) ->
   call d (OpInstall args) w
   = ((("Install " +:+ service_description d +:+ ":") +:+ failed,
       Some ErrAlreadyInstalled), checked d w)
   /\ no_mutation w (snd (call d (OpInstall args) w)))
  /\ (snd (fst (call d (OpInstall args) w)) = None ->
      let w' := snd (call d (OpInstall args) w) in
      call d (OpInstall args') w'
      = ((("Install " +:+ service_description d +:+ ":") +:+ failed,
          Some ErrAlreadyInstalled), checked d w')
      /\ no_mutation w' (snd (call d (OpInstall args') w'))).
Proof.
  assert (forall a v, privileged v = true ->
            is_Some (fs v !! definition_path d) ->
            call d (OpInstall a) v
            = ((("Install " +:+ service_description d +:+ ":") +:+ failed,
                Some ErrAlreadyInstalled), checked d v)
            /\ no_mutation v (snd (call d (OpInstall a) v))) as Hgen.
  { intros a v Hp Hf. rewrite (Install_installed d a v Hp Hf).
    split; [done|]. apply no_mutation_checked. }
  split; [apply Hgen|].
  intros [Hp Hf]%Install_ok. cbv zeta. apply Hgen; [|done].
  destruct (frame_call d (OpInstall args) w) as [-> _]. done.
Qed.

(** What ExecPath does once the privilege check has passed. *)
Lemma ExecPath_run (d : Daemon) (serviceName : string) (w : World) :
  privileged w = true ->
  let queried :=
    if String.eqb serviceName EmptyString then service_name d
    else serviceName in
  let argv := execpath_command d queried in
  call d (OpExecPath serviceName) w =
  match fs w !! definition_path d with
  | None => ((EmptyString, Some ErrNotInstalled), checked d w)
  | Some _ =>
      (command w (trace (checked d w)) argv,
       record (EvExec argv) (checked d w))
  end.
Proof.
  intros Hp. cbv zeta.
  destruct d as [linux|linux];
    cbn [call definition_path service_name execpath_command];
    run_checks Hp;
    (match goal with |- context [fs w !! ?p] =>
       destruct (fs w !! p) eqn:E end);
    [rewrite bool_decide_eq_true_2 by eauto
    |rewrite bool_decide_eq_false_2 by (by intros [? ?])
    |rewrite bool_decide_eq_true_2 by eauto
    |rewrite bool_decide_eq_false_2 by (by intros [? ?])];
    cbn [negb]; try done;
    rewrite bind_run; unfold exec_Output, checked;
    cbn [fst snd command record definition_path];
    match goal with |- context [command ?a ?b ?c] =>
      by destruct (command a b c) end.
Qed.

(** C10. With the privileges held, ExecPath looks up the definition file
    of the backend itself, whatever service name it is given: when that
    file is missing it returns NotInstalled without running anything;
    when it is there it runs the native query for the given name, or for
    the backend's own name when the given name is empty, and returns its
    output and error.  The result is the same on any host that agrees on
    the backend's own definition file, whatever its other files are: the
    installation of the named service is not looked at. *)
Theorem ExecPath_own_definition (d : Daemon) (serviceName : string) (w : World) :
  privileged w = true ->
  let queried :=
    if String.eqb serviceName EmptyString then service_name d
    else serviceName in
  let argv := execpath_command d queried in
  call d (OpExecPath serviceName) w
  = match fs w !! definition_path d with
    | None => ((EmptyString, Some ErrNotInstalled), checked d w)
    | Some _ =>
        (command w (trace (checked d w)) argv,
         record (EvExec argv) (checked d w))
    end
  /\ forall w2,
       privileged w2 = true -> command w2 = command w -> trace w2 = trace w ->
       is_Some (fs w2 !! definition_path d)
       <-> is_Some (fs w !! definition_path d) ->
       fst (call d (OpExecPath serviceName) w2)
       = fst (call d (OpExecPath serviceName) w).
Proof.
  intros Hp queried argv. split; [by apply ExecPath_run|].
  intros w2 Hp2 Hc Ht Hfs.
  rewrite (ExecPath_run d serviceName w Hp), (ExecPath_run d serviceName w2 Hp2).
  fold queried argv. unfold checked. cbn [trace record]. rewrite Hc, Ht.
  destruct (fs w !! definition_path d) as [nd|] eqn:E1,
           (fs w2 !! definition_path d) as [nd2|] eqn:E2; try done.
  - exfalso. eapply is_Some_None. apply Hfs. eauto.
  - exfalso. eapply is_Some_None. apply Hfs. eauto.
Qed.

(** C7. Install, Remove, Start, Stop and Restart return on
    every outcome, privilege denial included, a non-empty message made of
    the label of the action, the description of the service and the
    success marker when the error is nil, the failure marker when it is
    not.  Status and ExecPath return the empty message when the privilege
    check denies access; Status returns [Status could not defined] when
    the service is not installed and the description given by the status
    parser otherwise; ExecPath returns the empty string when the service
    is not installed and the output of the native query otherwise. *)
Theorem action_messages (d : Daemon) (op : operation) (w : World) :
  let msg := fst (fst (call d op w)) in
  let err := snd (fst (call d op w)) in
  match op with
  | OpStatus =>
      if privileged w then
        match fs w !! definition_path d with
        | None => msg = "Status could not defined"
                  /\ err = Some ErrNotInstalled
        | Some _ => msg = fst (fst (check_running d (checked d w)))
                    /\ err = None
        end
      else msg = EmptyString /\ err = Some ErrPermissionDenied
  | OpExecPath n =>
      if privileged w then
        match fs w !! definition_path d with
        | None => msg = EmptyString /\ err = Some ErrNotInstalled
        | Some _ =>
            (msg, err)
            = command w (trace (checked d w))
                (execpath_command d
                   (if String.eqb n EmptyString then service_name d else n))
        end
      else msg = EmptyString /\ err = Some ErrPermissionDenied
  | _ =>
      msg = (action_label op +:+ service_description d +:+ ":")
            +:+ (if is_nil err then success else failed)
      /\ msg <> EmptyString
  end.
Proof.
  cbv zeta. destruct op as [args| | | | | |n].
  6: {
    destruct (privileged w) eqn:Hp.
    - destruct d as [linux|linux]; cbn [call definition_path check_running];
        run_checks Hp;
        (match goal with |- context [fs w !! ?p] =>
           destruct (fs w !! p) eqn:E end);
        [rewrite bool_decide_eq_true_2 by eauto
        |rewrite bool_decide_eq_false_2 by (by intros [? ?])
        |rewrite bool_decide_eq_true_2 by eauto
        |rewrite bool_decide_eq_false_2 by (by intros [? ?])];
        cbn [negb]; try done;
        rewrite bind_run; unfold checked; cbn [definition_path];
        match goal with |- context [?f linux ?w0] =>
          by destruct (f linux w0) as [[? ?] ?] end.
    - by destruct d; cbn [call]; unfold_methods; rewrite guard_run, Hp. }
  6: {
    destruct (privileged w) eqn:Hp.
    - rewrite (ExecPath_run d n w Hp).
      destruct (fs w !! definition_path d); [|done].
      cbn [fst snd]. by destruct (command w _ _).
    - by destruct d; cbn [call]; unfold_methods; rewrite guard_run, Hp. }
  all: match goal with |- context [call ?d0 ?op ?w0] =>
    change (wp (call d0 op)
              (fun r _ =>
                 fst r = (action_label op +:+ service_description d0 +:+ ":")
                         +:+ (if is_nil (snd r) then success else failed)
                 /\ fst r <> EmptyString) w0) end.
  all: destruct d as [linux|linux];
    cbn [call action_label service_description]; unfold_methods;
    apply wp_bind; unfold wp at 1, checkPrivileges; cbn [fst snd];
    destruct (privileged w); cbn [negb];
    repeat wp_any_step; (split; [done|]).
  all: simpl; discriminate.
Qed.

End lifecycle.

(** ** Registration with the SysV init system *)

Lemma wp_defer {A} p (body : M A) (Q : A -> World -> Prop) w :
  wp (defer_Close p body) Q w
  <-> wp body (fun r w1 => Q r (record (EvClose p) w1)) w.
Proof. unfold wp, defer_Close. by rewrite !bind_run. Qed.

(** One attempt to create a link. *)
Lemma os_Symlink_step o n w :
  let w' := snd (os_Symlink o n w) in
  trace w' = trace w ++ [EvSymlink o n]
  /\ fault w' = fault w
  /\ (forall q nd, fs w !! q = Some nd -> fs w' !! q = Some nd)
  /\ (forall q, fs w' !! q = fs w !! q \/ fs w' !! q = Some (Symlink o))
  /\ (fault w (EvSymlink o n) = None -> fs w !! n = None ->
      fs w' !! n = Some (Symlink o)).
Proof.
  cbv zeta. unfold os_Symlink, syscall.
  destruct (fault w (EvSymlink o n)) eqn:Ef; cbn [snd record trace fault fs].
  { split_and!; eauto. done. }
  destruct (fs w !! n) eqn:En; cbn [snd record set_fs trace fault fs].
  { split_and!; eauto. done. }
  split_and!; try done.
  - intros q nd Hq. rewrite lookup_insert_ne; [done | congruence].
  - intros q. destruct (decide (n = q)) as [->|].
    + right. by rewrite lookup_insert_eq.
    + left. by rewrite lookup_insert_ne.
  - intros _ _. by rewrite lookup_insert_eq.
Qed.

(** The loop over the runlevels: every link is attempted, in order,
    whatever the outcome of the attempts before it; nothing that exists is
    replaced; and a link whose name is free and whose creation does not fail
    is there afterwards. *)
Lemma symlink_loop o (f : string -> string) (l : list string) w :
  let w' := snd (for_each l (fun i =>
                   let* _ := os_Symlink o (f i) in ret tt) w) in
  trace w' = trace w ++ map (fun i => EvSymlink o (f i)) l
  /\ fault w' = fault w
  /\ (forall q nd, fs w !! q = Some nd -> fs w' !! q = Some nd)
  /\ (forall q, fs w' !! q = fs w !! q \/ fs w' !! q = Some (Symlink o))
  /\ (forall i, i ∈ l -> fault w (EvSymlink o (f i)) = None ->
      fs w !! f i = None \/ fs w !! f i = Some (Symlink o) ->
      fs w' !! f i = Some (Symlink o)).
Proof.
  revert w. induction l as [|x l IH]; intros w; cbv zeta.
  { cbn [for_each ret snd map]. rewrite app_nil_r.
    split_and!; try done; [by left|]. intros i Hi. by apply elem_of_nil in Hi. }
  cbn [for_each map]. rewrite !bind_run. cbn [ret snd].
  destruct (os_Symlink_step o (f x) w) as (Ht & Hf & Hkeep & Hcases & Hnew).
  destruct (IH (snd (os_Symlink o (f x) w)))
    as (Ht' & Hf' & Hkeep' & Hcases' & Hnew').
  split_and!.
  - rewrite Ht', Ht, <- app_assoc. done.
  - congruence.
  - eauto.
  - intros q. destruct (Hcases' q) as [->|]; [apply Hcases | by right].
  - intros i Hi Hfault Hfree.
    assert (fs (snd (os_Symlink o (f x) w)) !! f i = None
            \/ fs (snd (os_Symlink o (f x) w)) !! f i = Some (Symlink o))
      as Hmid.
    { destruct (Hcases (f i)) as [->| ->]; [done | by right]. }
    apply elem_of_cons in Hi as [->|Hi].
    + apply Hkeep'. destruct Hfree as [Hfree|Hthere]; [by apply Hnew|].
      by apply Hkeep.
    + apply Hnew'; [done | by rewrite Hf | done].
Qed.

Lemma lookup_field_present f (d : template.data) :
  existsb (fun k => String.eqb k f) (map fst d) = true ->
  is_Some (template.lookup_field f d).
Proof.
  induction d as [|[k v] d IH]; cbn [map fst existsb template.lookup_field];
    [done|].
  destruct (String.eqb k f); [eauto | done].
Qed.

(** A template whose fields are all in the data value renders. *)
Lemma Execute_total segs (d : template.data) :
  fields_present (map fst d) segs = true ->
  is_Some (template.Execute segs d).
Proof.
  induction segs as [|[t|a] segs IH]; cbn [fields_present forallb template.Execute].
  - eauto.
  - intros H. destruct (IH H) as [out ->]. cbn. eauto.
  - intros [Ha H]%andb_prop. destruct (template.field_of a) as [f|]; [|done].
    destruct (lookup_field_present f d Ha) as [v ->].
    destruct (IH H) as [out ->]. cbn. eauto.
Qed.

(** The init-script template parses, and renders for every service. *)
Lemma init_script_ok :
  exists templ,
    template.Parse SystemV.systemVConfig = Some templ
    /\ forall linux exe args,
         template.Execute templ
           [("Name", SystemV.name linux); ("Port", SystemV.port linux);
            ("Version", SystemV.version linux);
            ("Description", SystemV.description linux);
            ("Path", exe); ("Args", join " " args)]
         = Some (init_script linux exe args).
Proof.
  assert (exists t, template.Parse SystemV.systemVConfig = Some t
                    /\ fields_present
                         ["Name"; "Port"; "Version"; "Description"; "Path";
                          "Args"] t = true) as (t & Ht & Hf)
      by (eexists; split; vm_compute; reflexivity).
  exists t. split; [done|]. intros linux exe args.
  unfold init_script. rewrite Ht.
  match goal with |- ?e = _ => destruct e as [out|] eqn:E end; [done|].
  exfalso. eapply is_Some_None. rewrite <- E. by apply Execute_total.
Qed.

(** One attempt to delete a path. *)
Lemma os_Remove_step p w :
  let w' := snd (os_Remove p w) in
  trace w' = trace w ++ [EvRemove p]
  /\ fault w' = fault w
  /\ (forall q, fs w !! q = None -> fs w' !! q = None)
  /\ (fault w (EvRemove p) = None -> fs w' !! p = None).
Proof.
  cbv zeta. unfold os_Remove, syscall.
  destruct (fault w (EvRemove p)) eqn:Ef; cbn [snd record trace fault fs].
  { split_and!; eauto. done. }
  destruct (fs w !! p) eqn:Ep; cbn [snd record set_fs trace fault fs].
  - split_and!; try done.
    + intros q Hq. rewrite lookup_delete_ne; [done | congruence].
    + intros _. by rewrite lookup_delete_eq.
  - split_and!; eauto.
Qed.

Lemma os_Remove_run p w nd :
  fs w !! p = Some nd ->
  os_Remove p w
  = match fault w (EvRemove p) with
    | Some e => (Some e, record (EvRemove p) w)
    | None => (None, record (EvRemove p) (set_fs (delete p (fs w)) w))
    end.
Proof. intros H. unfold os_Remove, syscall. by rewrite H. Qed.

(** The loop of Remove over the runlevels: every deletion is attempted, in
    order, whatever the outcome of the ones before it, and a link whose
    deletion does not fail is gone afterwards. *)
Lemma remove_loop (f : string -> string) (l : list string) w :
  let w' := snd (for_each l (fun i =>
                   let* _ := os_Remove (f i) in ret tt) w) in
  trace w' = trace w ++ map (fun i => EvRemove (f i)) l
  /\ fault w' = fault w
  /\ (forall q, fs w !! q = None -> fs w' !! q = None)
  /\ (forall i, i ∈ l -> fault w (EvRemove (f i)) = None ->
      fs w' !! f i = None).
Proof.
  revert w. induction l as [|x l IH]; intros w; cbv zeta.
  { cbn [for_each ret snd map]. rewrite app_nil_r.
    split_and!; try done. intros i Hi. by apply elem_of_nil in Hi. }
  cbn [for_each map]. rewrite !bind_run. cbn [ret snd].
  destruct (os_Remove_step (f x) w) as (Ht & Hf & Hkeep & Hgone).
  destruct (IH (snd (os_Remove (f x) w))) as (Ht' & Hf' & Hkeep' & Hgone').
  split_and!.
  - rewrite Ht', Ht, <- app_assoc. done.
  - congruence.
  - eauto.
  - intros i [->|Hi]%elem_of_cons Hfault.
    + by apply Hkeep', Hgone.
    + apply Hgone'; [done | by rewrite Hf].
Qed.

Section registration.
Context {markers : Markers}.

(** C6. When the definition file was written and made
    executable, the SysV Install attempts the start links S87<name> in
    the rc directories of the runlevels 2, 3, 4 and 5 and then the kill
    links K17<name> in those of the runlevels 0, 1 and 6, each one whatever
    the outcome of the others, and reports success: a link that cannot be
    created is skipped.  A link whose name is free and whose creation does
    not fail points to the definition file afterwards. *)
Theorem sysv_Install_links (linux : SystemV.systemVRecord)
    (args : list string) (exe : string) (w : World) :
  let srvPath := SystemV.servicePath linux in
  let script := init_script linux exe args in
  privileged w = true ->
  fs w !! srvPath = None ->
  fault w (EvCreate srvPath) = None ->
  executable w (SystemV.name linux) = (exe, None) ->
  fault w (EvWrite srvPath script) = None ->
  fault w (EvChmod srvPath mode_0755) = None ->
  let r := SystemV.Install linux args w in
  fst r = (("Install " +:+ SystemV.description linux +:+ ":") +:+ success,
           None)
  /\ trace (snd r)
     = trace w
       ++ [EvCheckPrivileges; EvStat srvPath; EvCreate srvPath;
           EvExecutablePath (SystemV.name linux); EvWrite srvPath script;
           EvChmod srvPath mode_0755]
       ++ map (EvSymlink srvPath) (start_links (SystemV.name linux))
       ++ map (EvSymlink srvPath) (kill_links (SystemV.name linux))
       ++ [EvClose srvPath]
  /\ fs (snd r) !! srvPath = Some (File script mode_0755)
  /\ forall link,
       link ∈ start_links (SystemV.name linux)
              ++ kill_links (SystemV.name linux) ->
       fault w (EvSymlink srvPath link) = None ->
       fs w !! link = None ->
       fs (snd r) !! link = Some (Symlink srvPath).
Proof.
  intros srvPath script Hp Hfree Hcreate Hexe Hwrite Hchmod r.
  change (wp (SystemV.Install linux args)
            (fun res w' =>
               res = (("Install " +:+ SystemV.description linux +:+ ":")
                      +:+ success, None)
               /\ trace w'
                  = trace w
                    ++ [EvCheckPrivileges; EvStat srvPath; EvCreate srvPath;
                        EvExecutablePath (SystemV.name linux);
                        EvWrite srvPath script; EvChmod srvPath mode_0755]
                    ++ map (EvSymlink srvPath)
                         (start_links (SystemV.name linux))
                    ++ map (EvSymlink srvPath)
                         (kill_links (SystemV.name linux))
                    ++ [EvClose srvPath]
               /\ fs w' !! srvPath = Some (File script mode_0755)
               /\ forall link,
                    link ∈ start_links (SystemV.name linux)
                           ++ kill_links (SystemV.name linux) ->
                    fault w (EvSymlink srvPath link) = None ->
                    fs w !! link = None ->
                    fs w' !! link = Some (Symlink srvPath)) w).
  unfold SystemV.Install.
  apply wp_bind. unfold wp at 1, checkPrivileges. cbn [fst snd].
  rewrite Hp. cbn [negb].
  unfold SystemV.isInstalled. apply wp_bind, wp_bind.
  unfold wp at 1, os_Stat. cbn [fst snd record fs]. fold srvPath.
  rewrite Hfree. apply wp_ret. cbn [is_nil].
  apply wp_bind. unfold wp at 1, os_Create, syscall.
  cbn [fault record fs trace]. rewrite Hcreate, Hfree. cbn [fst snd].
  apply wp_defer.
  apply wp_bind. unfold wp at 1, executablePath.
  cbn [executable record set_fs fst snd]. rewrite Hexe.
  destruct init_script_ok as (templ & -> & Hrender).
  apply wp_bind. unfold template_Execute. rewrite Hrender. fold script.
  unfold wp at 1, file_Write, syscall.
  cbn [fault record set_fs fs trace]. rewrite Hwrite, lookup_insert_eq.
  cbn [fst snd].
  apply wp_bind. unfold wp at 1, os_Chmod, syscall.
  cbn [fault record set_fs fs trace]. rewrite Hchmod, lookup_insert_eq.
  cbn [fst snd].
  match goal with |- wp _ _ ?w0 => set (w6 := w0) end.
  assert (trace w6
          = trace w ++ [EvCheckPrivileges; EvStat srvPath; EvCreate srvPath;
                        EvExecutablePath (SystemV.name linux);
                        EvWrite srvPath script; EvChmod srvPath mode_0755])
    as Htrace by (cbn; by rewrite <- !app_assoc).
  assert (fault w6 = fault w) as Hfault by done.
  assert (fs w6 !! srvPath = Some (File script mode_0755)) as Hfile
      by (cbn; by rewrite lookup_insert_eq).
  assert (forall q, q <> srvPath -> fs w6 !! q = fs w !! q) as Hother
      by (intros q Hq; cbn; by rewrite !lookup_insert_ne).
  clearbody w6.
  apply wp_bind. unfold wp at 1.
  destruct (symlink_loop srvPath
              (fun i => "/etc/rc" +:+ i +:+ ".d/S87" +:+ SystemV.name linux)
              ["2"; "3"; "4"; "5"] w6)
    as (Ht1 & Hf1 & Hkeep1 & Hcases1 & Hnew1).
  match goal with |- wp _ _ ?w0 => generalize dependent w0 end.
  intros w7 Ht1 Hf1 Hkeep1 Hcases1 Hnew1.
  apply wp_bind. unfold wp at 1.
  destruct (symlink_loop srvPath
              (fun i => "/etc/rc" +:+ i +:+ ".d/K17" +:+ SystemV.name linux)
              ["0"; "1"; "6"] w7)
    as (Ht2 & Hf2 & Hkeep2 & Hcases2 & Hnew2).
  match goal with |- wp _ _ ?w0 => generalize dependent w0 end.
  intros w8 Ht2 Hf2 Hkeep2 Hcases2 Hnew2.
  apply wp_ret.
  assert (forall i tag,
            "/etc/rc" +:+ i +:+ tag +:+ SystemV.name linux <> srvPath)
    as Hne.
  { intros i tag. unfold srvPath, SystemV.servicePath. simpl.
    intros [=]. }
  split_and!.
  - done.
  - rewrite Ht2, Ht1, Htrace. unfold start_links, kill_links.
    rewrite !map_map, <- !app_assoc. done.
  - by apply Hkeep2, Hkeep1.
  - intros link [Hin|Hin]%elem_of_app Hlf Hlfree;
      apply list_elem_of_fmap in Hin as (i & -> & Hi).
    + apply Hkeep2, Hnew1; [done | by rewrite Hfault |].
      left. by rewrite Hother.
    + apply Hnew2; [done | by rewrite Hf1, Hfault |].
      destruct (Hcases1 ("/etc/rc" +:+ i +:+ ".d/K17" +:+ SystemV.name linux))
        as [->|]; [|by right].
      left. by rewrite Hother.
Qed.

(** C1. Once Remove has passed the privilege check and the
    installed check: the SysV backend attempts the deletion of the
    definition file and returns its error at once when it fails, no link
    being touched; when it succeeds, the deletion of each of the seven
    runlevel links is attempted, whatever the outcome of the others, and
    success is reported.  The systemd backend runs the disable command and
    returns its error at once when it fails, the unit file being left in
    place; when it succeeds, the deletion of the unit file is attempted
    and its outcome reported. *)
Theorem Remove_steps (d : Daemon) (w : World) :
  privileged w = true ->
  is_Some (fs w !! definition_path d) ->
  let r := call d OpRemove w in
  let label := "Removing " +:+ service_description d +:+ ":" in
  let path := definition_path d in
  match d with
  | systemV linux =>
      match fault w (EvRemove path) with
      | Some e =>
          r = ((label +:+ failed, Some e),
               record (EvRemove path) (checked d w))
      | None =>
          fst r = (label +:+ success, None)
          /\ trace (snd r)
             = trace w
               ++ [EvCheckPrivileges; EvStat path; EvRemove path]
               ++ map EvRemove (start_links (SystemV.name linux))
               ++ map EvRemove (kill_links (SystemV.name linux))
          /\ fs (snd r) !! path = None
          /\ forall link,
               link ∈ start_links (SystemV.name linux)
                      ++ kill_links (SystemV.name linux) ->
               fault w (EvRemove link) = None ->
               fs (snd r) !! link = None
      end
  | systemD linux =>
      let disable := ["systemctl"; "disable";
                      SystemD.name linux +:+ ".service"] in
      let disabled := record (EvExec disable) (checked d w) in
      match snd (command w (trace (checked d w)) disable) with
      | Some e => r = ((label +:+ failed, Some e), disabled)
      | None =>
          match fault w (EvRemove path) with
          | Some e =>
              r = ((label +:+ failed, Some e),
                   record (EvRemove path) disabled)
          | None =>
              r = ((label +:+ success, None),
                   record (EvRemove path)
                     (set_fs (delete path (fs w)) disabled))
          end
      end
  end.
Proof.
  intros Hp Hthere.
  destruct d as [linux|linux];
    cbn [call definition_path service_description] in *; cbv zeta.
  - (* systemd *)
    assert (SystemD.Remove linux w
            = (let disable := ["systemctl"; "disable";
                               SystemD.name linux +:+ ".service"] in
               let disabled :=
                 record (EvExec disable) (checked (systemD linux) w) in
               let label := "Removing " +:+ SystemD.description linux
                            +:+ ":" in
               match snd (command w (trace (checked (systemD linux) w))
                            disable) with
               | Some e => ret (label +:+ failed, Some e) disabled
               | None =>
                   bind (os_Remove (SystemD.servicePath linux))
                     (fun err =>
                        match err with
                        | Some e => ret (label +:+ failed, Some e)
                        | None => ret (label +:+ success, None)
                        end) disabled
               end)) as ->.
    { run_checks Hp. rewrite bool_decide_eq_true_2 by done. cbn [negb].
      unfold exec_Run. rewrite !bind_run. unfold exec_Output, checked.
      cbn [fst snd command trace record definition_path].
      destruct (command w _ _) as [out [e|]]; cbn [fst snd ret]; [done|].
      by rewrite bind_run. }
    cbv zeta. destruct (snd (command w _ _)); [done|].
    rewrite bind_run. unfold os_Remove, syscall, checked.
    cbn [fault fs record definition_path].
    destruct (fault w _); [done|].
    destruct Hthere as [nd ->]. done.
  - (* SysV *)
    assert (SystemV.Remove linux w
            = (let label := "Removing " +:+ SystemV.description linux
                            +:+ ":" in
               bind (os_Remove (SystemV.servicePath linux))
                 (fun err =>
                    match err with
                    | Some e => ret (label +:+ failed, Some e)
                    | None =>
                        let* _ := for_each ["2"; "3"; "4"; "5"] (fun i =>
                          let* _ := os_Remove
                                      ("/etc/rc" +:+ i +:+ ".d/S87"
                                       +:+ SystemV.name linux) in
                          ret tt) in
                        let* _ := for_each ["0"; "1"; "6"] (fun i =>
                          let* _ := os_Remove
                                      ("/etc/rc" +:+ i +:+ ".d/K17"
                                       +:+ SystemV.name linux) in
                          ret tt) in
                        ret (label +:+ success, None)
                    end) (checked (systemV linux) w))) as ->.
    { run_checks Hp. by rewrite bool_decide_eq_true_2 by done. }
    cbv zeta. rewrite bind_run. destruct Hthere as [nd Hnd].
    rewrite (os_Remove_run _ (checked (systemV linux) w) nd) by done.
    unfold checked. cbn [fault fs trace record definition_path].
    destruct (fault w (EvRemove (SystemV.servicePath linux))) eqn:Ef;
      [done|].
    cbn [fst snd].
    match goal with |- context [bind _ _ ?w0] =>
      set (w3 := w0) in * end.
    assert (trace w3
            = trace w ++ [EvCheckPrivileges;
                          EvStat (SystemV.servicePath linux);
                          EvRemove (SystemV.servicePath linux)]) as Ht0
        by (cbn; by rewrite <- !app_assoc).
    assert (fault w3 = fault w) as Hf0 by done.
    assert (fs w3 !! SystemV.servicePath linux = None) as Hg0
        by (cbn; by rewrite lookup_delete_eq).
    clearbody w3.
    rewrite !bind_run.
    destruct (remove_loop
                (fun i => "/etc/rc" +:+ i +:+ ".d/S87" +:+ SystemV.name linux)
                ["2"; "3"; "4"; "5"] w3) as (Ht1 & Hf1 & Hk1 & Hg1).
    match goal with |- context [for_each ["0"; "1"; "6"] _ ?w0] =>
      set (w4 := w0) in * end.
    clearbody w4.
    destruct (remove_loop
                (fun i => "/etc/rc" +:+ i +:+ ".d/K17" +:+ SystemV.name linux)
                ["0"; "1"; "6"] w4) as (Ht2 & Hf2 & Hk2 & Hg2).
    match goal with |- context [ret _ ?w0] =>
      set (w5 := w0) in * end.
    clearbody w5. cbn [ret fst snd].
    split_and!.
    + done.
    + rewrite Ht2, Ht1, Ht0. unfold start_links, kill_links.
      rewrite !map_map, <- !app_assoc. done.
    + by apply Hk2, Hk1.
    + intros link [Hin|Hin]%elem_of_app Hlf;
        apply list_elem_of_fmap in Hin as (i & -> & Hi).
      * apply Hk2, Hg1; [done | by rewrite Hf0].
      * apply Hg2; [done | by rewrite Hf1, Hf0].
Qed.

End registration.

(** ** Concrete runs *)

Section runs.
#[local] Existing Instance sample_markers.

(** Counterexample to the stronger reading of C1, that every cleanup step is
    always attempted.  On a host where the service foo is installed and the
    deletion of /etc/init.d/foo fails, the SysV Remove reports the failure
    after that one attempt: the deletion of the link S87foo of runlevel 2,
    like that of the other links, is never attempted. *)
Lemma Remove_returns_at_first_error :
  let w := host true installed_files "/usr/bin/foo" (EmptyString, None)
             (fun e => bool_decide (e = EvRemove "/etc/init.d/foo")) in
  fst (call (systemV foo_V) OpRemove w)
  = ("Removing Foo Service:" +:+ failed, Some injected)
  /\ trace (snd (call (systemV foo_V) OpRemove w))
     = [EvCheckPrivileges; EvStat "/etc/init.d/foo";
        EvRemove "/etc/init.d/foo"]
  /\ ~ Remove_attempts_every_step.
Proof.
  cbv zeta. split; [vm_compute; reflexivity|].
  split; [vm_compute; reflexivity|].
  intros H.
  specialize (H sample_markers (systemV foo_V)
                (host true installed_files "/usr/bin/foo" (EmptyString, None)
                   (fun e => bool_decide (e = EvRemove "/etc/init.d/foo")))
                eq_refl).
  specialize (H ltac:(eexists; vm_compute; reflexivity)
                (EvRemove "/etc/rc2.d/S87foo")).
  specialize (H ltac:(vm_compute; right; left)).
  vm_compute in H.
  repeat (apply elem_of_cons in H as [H|H]; [discriminate H|]).
  by apply elem_of_nil in H.
Qed.

(** Counterexample to the stronger reading of C6, that a written definition
    file is enough for success.  On a host with no file where the change of
    mode of /etc/init.d/foo fails, the SysV Install has written the rendered
    script to the definition file, which keeps the mode it was created
    with, and reports the failure. *)
Lemma Install_fails_after_writing :
  let w := host true no_files "/usr/bin/foo" (EmptyString, None)
             (fun e => bool_decide
                         (e = EvChmod "/etc/init.d/foo" mode_0755)) in
  let r := SystemV.Install foo_V ["--x"] w in
  fst r = ("Install Foo Service:" +:+ failed, Some injected)
  /\ fs (snd r) !! "/etc/init.d/foo"
     = Some (File (init_script foo_V "/usr/bin/foo" ["--x"]) mode_0666)
  /\ ~ Install_succeeds_once_written.
Proof.
  cbv zeta. split; [vm_compute; reflexivity|].
  split; [vm_compute; reflexivity|].
  intros H.
  specialize (H sample_markers foo_V ["--x"]
                (host true no_files "/usr/bin/foo" (EmptyString, None)
                   (fun e => bool_decide
                               (e = EvChmod "/etc/init.d/foo" mode_0755)))
                "/usr/bin/foo" mode_0666 eq_refl).
  cbv zeta in H.
  specialize (H ltac:(vm_compute; do 4 apply list_elem_of_further;
                      apply list_elem_of_here)).
  specialize (H ltac:(vm_compute; reflexivity)).
  vm_compute in H. discriminate H.
Qed.

(** Counterexample to the stronger reading of C7, that every message is
    non-empty.  On a host without the privileges, Status of the systemd
    backend returns the empty message with the error of the guard. *)
Lemma Status_message_empty_on_denial :
  let w := host false no_files "/usr/bin/foo" (EmptyString, None) no_fault in
  fst (call (systemD foo_D) OpStatus w)
  = (EmptyString, Some ErrPermissionDenied)
  /\ ~ every_message_nonempty.
Proof.
  cbv zeta. split; [vm_compute; reflexivity|].
  intros H.
  specialize (H sample_markers (systemD foo_D) OpStatus
                (host false no_files "/usr/bin/foo" (EmptyString, None) no_fault)).
  vm_compute in H. by apply H.
Qed.

(** The theorems at work on the sample hosts. *)

Lemma Remove_steps_witness :
  let d := systemV foo_V in
  let w := host true installed_files "/usr/bin/foo" (EmptyString, None)
             (fun e => bool_decide (e = EvRemove "/etc/rc3.d/S87foo")) in
  privileged w = true
  /\ is_Some (fs w !! definition_path d)
  /\ fst (call d OpRemove w)
     = ("Removing Foo Service:" +:+ success, None)
  /\ trace (snd (call d OpRemove w))
     = [EvCheckPrivileges; EvStat "/etc/init.d/foo";
        EvRemove "/etc/init.d/foo";
        EvRemove "/etc/rc2.d/S87foo"; EvRemove "/etc/rc3.d/S87foo";
        EvRemove "/etc/rc4.d/S87foo"; EvRemove "/etc/rc5.d/S87foo";
        EvRemove "/etc/rc0.d/K17foo"; EvRemove "/etc/rc1.d/K17foo";
        EvRemove "/etc/rc6.d/K17foo"].
Proof.
  cbv zeta.
  pose proof (Remove_steps (systemV foo_V)
                (host true installed_files "/usr/bin/foo" (EmptyString, None)
                   (fun e => bool_decide (e = EvRemove "/etc/rc3.d/S87foo")))
                eq_refl ltac:(eexists; vm_compute; reflexivity)) as H.
  cbv zeta in H.
  change (fault _ (EvRemove (definition_path (systemV foo_V))))
    with (@None error) in H.
  cbv iota in H. destruct H as (H1 & H2 & _).
  split; [reflexivity|]. split; [eexists; vm_compute; reflexivity|].
  split; [exact H1 | exact H2].
Defined.

Lemma sysv_Install_links_witness :
  let w := host true no_files "/usr/bin/foo" (EmptyString, None)
             (fun e => bool_decide
                         (e = EvSymlink "/etc/init.d/foo"
                                "/etc/rc4.d/S87foo")) in
  let r := SystemV.Install foo_V ["--x"] w in
  fst r = ("Install Foo Service:" +:+ success, None)
  /\ fs (snd r) !! "/etc/rc2.d/S87foo" = Some (Symlink "/etc/init.d/foo")
  /\ fs (snd r) !! "/etc/rc6.d/K17foo" = Some (Symlink "/etc/init.d/foo").
Proof.
  cbv zeta.
  pose proof (sysv_Install_links foo_V ["--x"] "/usr/bin/foo"
                (host true no_files "/usr/bin/foo" (EmptyString, None)
                   (fun e => bool_decide
                               (e = EvSymlink "/etc/init.d/foo"
                                      "/etc/rc4.d/S87foo")))
                eq_refl ltac:(vm_compute; reflexivity) eq_refl eq_refl
                eq_refl eq_refl) as H.
  cbv zeta in H. destruct H as (H1 & _ & _ & H4).
  split; [exact H1|]. split.
  - apply (H4 "/etc/rc2.d/S87foo"); [| reflexivity | vm_compute; reflexivity].
    vm_compute. apply list_elem_of_here.
  - apply (H4 "/etc/rc6.d/K17foo"); [| reflexivity | vm_compute; reflexivity].
    vm_compute. do 6 apply list_elem_of_further. apply list_elem_of_here.
Defined.

Lemma ExecPath_own_definition_witness :
  let w := host true installed_files "/usr/bin/foo"
             ("/usr/bin/bar", None) no_fault in
  privileged w = true
  /\ fst (call (systemV foo_V) (OpExecPath "bar") w)
     = ("/usr/bin/bar", None)
  /\ trace (snd (call (systemV foo_V) (OpExecPath "bar") w))
     = [EvCheckPrivileges; EvStat "/etc/init.d/foo";
        EvExec ["service"; "bar"; "execpath"]].
Proof.
  cbv zeta. split; [reflexivity|].
  destruct (ExecPath_own_definition (systemV foo_V) "bar"
              (host true installed_files "/usr/bin/foo"
                 ("/usr/bin/bar", None) no_fault) eq_refl) as [-> _].
  vm_compute. split; reflexivity.
Defined.

Lemma privilege_guard_first_witness :
  let w := host false installed_files "/usr/bin/foo" (EmptyString, None)
             no_fault in
  privileged w = false
  /\ snd (fst (call (systemD foo_D) OpRemove w)) = Some ErrPermissionDenied
  /\ snd (call (systemD foo_D) OpRemove w) = record EvCheckPrivileges w.
Proof.
  cbv zeta. split; [reflexivity|].
  destruct (privilege_guard_first (systemD foo_D) OpRemove
              (host false installed_files "/usr/bin/foo" (EmptyString, None)
                 no_fault)) as [_ H].
  destruct (H eq_refl) as (H1 & H2 & _). split; [exact H1 | exact H2].
Defined.

Lemma Install_twice_witness :
  let w := host true no_files "/usr/bin/foo" (EmptyString, None) no_fault in
  let w' := snd (call (systemD foo_D) (OpInstall ["--x"]) w) in
  snd (fst (call (systemD foo_D) (OpInstall ["--x"]) w)) = None
  /\ call (systemD foo_D) (OpInstall ["--y"]) w'
     = (("Install Foo Service:" +:+ failed, Some ErrAlreadyInstalled),
        checked (systemD foo_D) w').
Proof.
  cbv zeta. split; [vm_compute; reflexivity|].
  destruct (Install_twice (systemD foo_D) ["--x"] ["--y"]
              (host true no_files "/usr/bin/foo" (EmptyString, None) no_fault))
    as [_ H].
  destruct (H ltac:(vm_compute; reflexivity)) as [H1 _]. exact H1.
Defined.

End runs.

(** ** Starting, stopping and querying a service *)

Lemma check_running_world (d : Daemon) (w : World) :
  snd (check_running d w) = record (EvExec (action_command d "status")) w.
Proof.
  destruct d as [linux|linux]; cbn [check_running action_command];
    unfold SystemD.checkRunning, SystemV.checkRunning, exec_Output,
      regexp_MatchString, get_world, bind, ret;
    destruct (command w (trace w) _) as [output [e|]];
    cbn beta iota delta [is_nil]; try done;
    repeat match goal with
           | |- context [regexp.MatchString ?o ?p ?s] =>
               destruct (regexp.MatchString o p s) as [? [?|]];
               cbn beta iota delta [is_nil andb]; try done
           | |- context [if ?b then _ else _] => destruct b; try done
           end.
Qed.

#[local] Instance same_files_refl : Reflexive same_files.
Proof. by intros w. Qed.

#[local] Instance same_files_trans : Transitive same_files.
Proof. intros w1 w2 w3 H1 H2. unfold same_files in *. congruence. Qed.

Lemma same_files_os_Stat p : keeps same_files (os_Stat p).
Proof. by intros w. Qed.

Lemma same_files_exec_Output argv : keeps same_files (exec_Output argv).
Proof. by intros w. Qed.

Lemma same_files_checkPrivileges : keeps same_files checkPrivileges.
Proof. by intros w. Qed.

#[local] Hint Resolve same_files_os_Stat same_files_exec_Output
  same_files_checkPrivileges : keeps.

Ltac query_status f :=
  match goal with
  | |- context [f ?l ?w0] => destruct (f l w0) as [[msg ok] w1]
  end.

Section control.
Context {markers : Markers}.

(** X1. With the privileges held, every operation but Install, on a host
    where the definition file of the backend is missing, returns the
    NotInstalled error after the privilege check and the lookup of the
    definition file: no native command is run and nothing is changed. *)
Theorem not_installed_guard (d : Daemon) (op : operation) (w : World) :
  privileged w = true ->
  fs w !! definition_path d = None ->
  needs_installation op = true ->
  call d op w
  = ((not_installed_message d op, Some ErrNotInstalled), checked d w)
  /\ no_mutation w (snd (call d op w)).
Proof.
  intros Hp Hf Hop.
  assert (call d op w
          = ((not_installed_message d op, Some ErrNotInstalled), checked d w))
    as ->.
  { destruct d as [linux|linux], op; try discriminate Hop;
      cbn [call definition_path not_installed_message action_label
             service_description] in *;
      run_checks Hp; rewrite bool_decide_eq_false_2; try done;
      rewrite Hf; by intros [? ?]. }
  split; [done|]. apply no_mutation_checked.
Qed.

(** X2. With the privileges held and the service installed, Start queries
    the status once.  When the parser reports running it returns
    AlreadyRunning and the start command is not run; otherwise it runs the
    start command once and reports its outcome: success when the command
    returns no error, failure with the command's error when it does. *)
Theorem Start_run (d : Daemon) (w : World) :
  privileged w = true ->
  is_Some (fs w !! definition_path d) ->
  let queried := record (EvExec (action_command d "status")) (checked d w) in
  let start := action_command d "start" in
  call d OpStart w
  = if snd (fst (check_running d (checked d w)))
    then (((action_label OpStart +:+ service_description d +:+ ":")
           +:+ failed, Some ErrAlreadyRunning), queried)
    else (action_outcome d OpStart (snd (command w (trace queried) start)),
          record (EvExec start) queried).
Proof.
  intros Hp Hf. cbv zeta.
  pose proof (check_running_world d (checked d w)) as Hw.
  destruct d as [linux|linux];
    cbn [call definition_path check_running action_command action_label
           service_description action_outcome] in *;
    run_checks Hp; rewrite bool_decide_eq_true_2 by done; cbn [negb];
    rewrite bind_run; unfold checked in *; cbn [definition_path] in *;
    first [query_status SystemD.checkRunning
          |query_status SystemV.checkRunning];
    cbn [fst snd] in *; subst w1; destruct ok; cbn [negb]; try done;
    unfold exec_Run, exec_Output; rewrite !bind_run; cbn [fst snd command record];
    match goal with |- context [command w ?t ?a] =>
      by destruct (command w t a) as [out [e|]] end.
Qed.

(** X3. With the privileges held and the service installed, Stop queries
    the status once.  When the parser reports stopped it returns
    AlreadyStopped and the stop command is not run; otherwise it runs the
    stop command once and reports its outcome. *)
Theorem Stop_run (d : Daemon) (w : World) :
  privileged w = true ->
  is_Some (fs w !! definition_path d) ->
  let queried := record (EvExec (action_command d "status")) (checked d w) in
  let stop := action_command d "stop" in
  call d OpStop w
  = if snd (fst (check_running d (checked d w)))
    then (action_outcome d OpStop (snd (command w (trace queried) stop)),
          record (EvExec stop) queried)
    else (((action_label OpStop +:+ service_description d +:+ ":")
           +:+ failed, Some ErrAlreadyStopped), queried).
Proof.
  intros Hp Hf. cbv zeta.
  pose proof (check_running_world d (checked d w)) as Hw.
  destruct d as [linux|linux];
    cbn [call definition_path check_running action_command action_label
           service_description action_outcome] in *;
    run_checks Hp; rewrite bool_decide_eq_true_2 by done; cbn [negb];
    rewrite bind_run; unfold checked in *; cbn [definition_path] in *;
    first [query_status SystemD.checkRunning
          |query_status SystemV.checkRunning];
    cbn [fst snd] in *; subst w1; destruct ok; cbn [negb]; try done;
    unfold exec_Run, exec_Output; rewrite !bind_run; cbn [fst snd command record];
    match goal with |- context [command w ?t ?a] =>
      by destruct (command w t a) as [out [e|]] end.
Qed.

(** X4. With the privileges held and the service installed, Restart runs
    the restart command at once, without querying the status, and reports
    its outcome. *)
Theorem Restart_run (d : Daemon) (w : World) :
  privileged w = true ->
  is_Some (fs w !! definition_path d) ->
  let restart := action_command d "restart" in
  call d OpRestart w
  = (action_outcome d OpRestart
       (snd (command w (trace (checked d w)) restart)),
     record (EvExec restart) (checked d w)).
Proof.
  intros Hp Hf. cbv zeta.
  destruct d as [linux|linux];
    cbn [call definition_path action_command action_label
           service_description action_outcome] in *;
    run_checks Hp; rewrite bool_decide_eq_true_2 by done; cbn [negb];
    unfold exec_Run, exec_Output; rewrite !bind_run;
    unfold checked; cbn [fst snd command record trace definition_path];
    match goal with |- context [command w ?t ?a] =>
      by destruct (command w t a) as [out [e|]] end.
Qed.


End control.

(** ** More on the status parser of the SysV backend *)

(** X7. Whatever the service name, the SysV status parser reports stopped,
    with the stopped message, when the status command fails or when its
    output does not contain [running]. *)
Theorem sysv_checkRunning_stopped (linux : SystemV.systemVRecord) (w : World) :
  let argv := ["service"; SystemV.name linux; "status"] in
  snd (command w (trace w) argv) <> None
  \/ ~ substring_of "running" (fst (command w (trace w) argv)) ->
  fst (SystemV.checkRunning linux w)
  = ("Service " +:+ SystemV.name linux +:+ " is stopped", false).
Proof.
  cbv zeta. intros H.
  unfold SystemV.checkRunning, exec_Output, regexp_MatchString,
    get_world, bind, ret.
  destruct (command w (trace w) _) as [output err].
  cbn beta iota delta [fst snd] in *.
  destruct err as [e|]; cbn beta iota delta [is_nil]; [done|].
  destruct H as [H|H]; [done|].
  rewrite MatchString_literal by reflexivity.
  cbn beta iota delta [is_nil andb].
  destruct (contains "running" output) eqn:Hr; [|done].
  by apply contains_spec in Hr.
Qed.

(** ** The paths of the definition files *)

Lemma length_append (a b : string) :
  String.length (a +:+ b) = String.length a + String.length b.
Proof. induction a as [|c a IH]; simpl; [done | by rewrite IH]. Qed.

Lemma append_cancel_r (a b s : string) : a +:+ s = b +:+ s -> a = b.
Proof.
  intros E. apply (append_inj_length a b s s E).
  apply (f_equal String.length) in E. rewrite !length_append in E. lia.
Qed.

Lemma append_cancel_l (s a b : string) : s +:+ a = s +:+ b -> a = b.
Proof. intros E. by apply (append_inj_length s s a b E). Qed.

(** X8. The definition file is derived from the service name alone and
    determines it: two SysV records, or two systemd records, with the same
    definition file have the same name; and the definition file of a SysV
    record is never that of a systemd record, nor one of the runlevel links
    of a SysV record. *)
Theorem servicePath_injective :
  (forall l1 l2, SystemV.servicePath l1 = SystemV.servicePath l2 ->
                 SystemV.name l1 = SystemV.name l2)
  /\ (forall l1 l2, SystemD.servicePath l1 = SystemD.servicePath l2 ->
                    SystemD.name l1 = SystemD.name l2)
  /\ (forall lv ld, SystemV.servicePath lv <> SystemD.servicePath ld)
  /\ (forall lv n link,
        link ∈ start_links n ++ kill_links n ->
        link <> SystemV.servicePath lv).
Proof.
  split_and!.
  - intros l1 l2 E. by apply append_cancel_l in E.
  - intros l1 l2 E. unfold SystemD.servicePath in E.
    apply append_cancel_l, append_cancel_r in E. done.
  - intros lv ld. unfold SystemV.servicePath, SystemD.servicePath. simpl.
    intros [=].
  - intros lv n link Hin E. subst link.
    apply elem_of_app in Hin as [Hin|Hin];
      apply list_elem_of_fmap in Hin as (i & E & _);
      unfold SystemV.servicePath in E; simpl in E; discriminate E.
Qed.

(** ** Installations that stop half-way *)

(** Run Install up to the creation of the definition file. *)
Ltac install_checks Hp Hf :=
  unfold_methods; apply wp_bind; unfold wp at 1, checkPrivileges;
  cbn [fst snd]; rewrite Hp; cbn [negb];
  unfold SystemD.isInstalled, SystemV.isInstalled;
  apply wp_bind, wp_bind; unfold wp at 1, os_Stat; cbn [fst snd record fs];
  rewrite Hf; apply wp_ret; cbn [is_nil].

Ltac install_create Hc Hf :=
  apply wp_bind; unfold wp at 1, os_Create, syscall;
  cbn [fault record fs trace]; rewrite Hc, Hf; cbn [fst snd].

#[local] Instance no_close_refl : Reflexive no_close.
Proof.
  intros w. exists []. rewrite app_nil_r. split; [done|].
  intros q Hq. by apply elem_of_nil in Hq.
Qed.

#[local] Instance no_close_trans : Transitive no_close.
Proof.
  intros w1 w2 w3 (evs1 & E1 & H1) (evs2 & E2 & H2).
  exists (evs1 ++ evs2). rewrite E2, E1, <- app_assoc. split; [done|].
  intros q [Hq|Hq]%elem_of_app; [by eapply H1 | by eapply H2].
Qed.

Lemma no_close_record e w :
  (forall q, e <> EvClose q) -> no_close w (record e w).
Proof.
  intros He. exists [e]. split; [done|].
  intros q [Hq|Hq]%elem_of_cons; [by eapply He | by apply elem_of_nil in Hq].
Qed.

Lemma no_close_syscall e step :
  (forall q, e <> EvClose q) -> keeps no_close (syscall e step).
Proof.
  intros He w. unfold syscall. destruct (fault w e); [by apply no_close_record|].
  destruct (step (fs w)); simpl; [by apply no_close_record|].
  by apply (no_close_record e (set_fs g w)).
Qed.

Lemma no_close_os_Stat p : keeps no_close (os_Stat p).
Proof. intros w. by apply no_close_record. Qed.

Lemma no_close_exec_Output argv : keeps no_close (exec_Output argv).
Proof. intros w. by apply no_close_record. Qed.

Lemma no_close_checkPrivileges : keeps no_close checkPrivileges.
Proof. intros w. by apply no_close_record. Qed.

Lemma no_close_executablePath n : keeps no_close (executablePath n).
Proof. intros w. by apply no_close_record. Qed.

Lemma no_close_os_Create p : keeps no_close (os_Create p).
Proof. by apply no_close_syscall. Qed.

Lemma no_close_file_Write p data : keeps no_close (file_Write p data).
Proof. by apply no_close_syscall. Qed.

Lemma no_close_os_Chmod p m : keeps no_close (os_Chmod p m).
Proof. by apply no_close_syscall. Qed.

Lemma no_close_os_Symlink o n : keeps no_close (os_Symlink o n).
Proof. by apply no_close_syscall. Qed.

Lemma no_close_os_Remove p : keeps no_close (os_Remove p).
Proof. by apply no_close_syscall. Qed.

#[local] Hint Resolve no_close_os_Stat no_close_exec_Output
  no_close_checkPrivileges no_close_executablePath no_close_os_Create
  no_close_file_Write no_close_os_Chmod no_close_os_Symlink
  no_close_os_Remove : keeps.

Section partial.
Context {markers : Markers}.

(** X9. Install creates the definition file before it resolves the
    executable, and never deletes it.  So once the file is created it is
    there when Install returns, whatever the outcome, and the next Install
    reports AlreadyInstalled; when the resolution of the executable fails,
    Install returns that error and leaves an empty definition file. *)
Theorem Install_leaves_definition_file (d : Daemon) (args : list string)
    (w : World) :
  privileged w = true ->
  fs w !! definition_path d = None ->
  fault w (EvCreate (definition_path d)) = None ->
  let w' := snd (call d (OpInstall args) w) in
  is_Some (fs w' !! definition_path d)
  /\ (forall args',
        call d (OpInstall args') w'
        = ((("Install " +:+ service_description d +:+ ":") +:+ failed,
            Some ErrAlreadyInstalled), checked d w'))
  /\ (forall exe e,
        executable w (service_name d) = (exe, Some e) ->
        fst (call d (OpInstall args) w)
        = (("Install " +:+ service_description d +:+ ":") +:+ failed, Some e)
        /\ fs w' !! definition_path d = Some (File EmptyString mode_0666)).
Proof.
  intros Hp Hf Hc. cbv zeta.
  assert (wp (call d (OpInstall args))
            (fun res w' =>
               is_Some (fs w' !! definition_path d)
               /\ forall exe e,
                    executable w (service_name d) = (exe, Some e) ->
                    res = (("Install " +:+ service_description d +:+ ":")
                           +:+ failed, Some e)
                    /\ fs w' !! definition_path d
                       = Some (File EmptyString mode_0666)) w) as [H1 H2].
  { destruct d as [linux|linux];
      cbn [call definition_path service_name service_description] in *;
      install_checks Hp Hf; install_create Hc Hf;
      apply wp_defer, wp_bind; unfold wp at 1, executablePath;
      cbn [executable record set_fs fst snd];
      (destruct (executable w _) as [exe [e|]] eqn:Hexe;
       [ apply wp_ret; cbn [fs record set_fs];
         rewrite lookup_insert_eq; split; [eauto|];
         by intros exe' e' [= -> ->]
       | match goal with |- context [EvCreate ?p] =>
           apply (wp_keeps (still_there p));
             [ keeps_tac
             | intros a w' Hs; cbn [fs record]; split;
               [ apply Hs; cbn [fs record set_fs];
                 rewrite lookup_insert_eq; eauto
               | intros ? ? ?; congruence ] ]
         end ]). }
  split; [done|]. split; [|done].
  intros args'. apply Install_installed; [|done].
  destruct (frame_call d (OpInstall args) w) as [-> _]. done.
Qed.

(** The calls listed were made and no file was closed. *)
Ltac no_close_listed :=
  eexists; split;
  [ cbn [trace record set_fs]; rewrite <- ?app_assoc; reflexivity
  | let Hq := fresh "Hq" in
    intros ? Hq; cbn [app] in Hq;
    repeat (apply elem_of_cons in Hq as [Hq|Hq]; [discriminate Hq|]);
    by apply elem_of_nil in Hq ].

(** X10. Install closes the definition file exactly when it has created
    it: then the close is its last call and the only close; when the
    privilege check denies access, the service is installed already or the
    creation fails, no file is closed. *)
Theorem Install_closes_file (d : Daemon) (args : list string) (w : World) :
  let p := definition_path d in
  let w' := snd (call d (OpInstall args) w) in
  if creates_definition d w
  then exists evs,
         trace w' = trace w ++ [EvCheckPrivileges; EvStat p; EvCreate p]
                    ++ evs ++ [EvClose p]
         /\ forall q, EvClose q ∉ evs
  else no_close w w'.
Proof.
  cbv zeta. unfold creates_definition.
  match goal with |- if ?b then ?A else ?B =>
    change (wp (call d (OpInstall args))
              (fun _ w' =>
                 if b
                 then exists evs,
                        trace w' = trace w ++ [EvCheckPrivileges;
                                               EvStat (definition_path d);
                                               EvCreate (definition_path d)]
                                   ++ evs ++ [EvClose (definition_path d)]
                        /\ forall q, EvClose q ∉ evs
                 else no_close w w') w) end.
  destruct d as [linux|linux]; cbn [call definition_path]; unfold_methods;
    (apply wp_bind; unfold wp at 1, checkPrivileges; cbn [fst snd];
     destruct (privileged w); cbn [negb andb];
     [| apply wp_ret; no_close_listed];
     unfold SystemD.isInstalled, SystemV.isInstalled;
     apply wp_bind, wp_bind; unfold wp at 1, os_Stat; cbn [fst snd record fs];
     apply wp_ret;
     match goal with |- context [fs w !! ?p] =>
       destruct (fs w !! p) as [nd|] eqn:Hf end; cbn [is_nil];
     [ rewrite bool_decide_eq_false_2 by done; cbn [andb];
       apply wp_ret; no_close_listed |];
     rewrite bool_decide_eq_true_2 by done; cbn [andb];
     apply wp_bind; unfold wp at 1, os_Create, syscall;
     cbn [fault record fs trace]; rewrite Hf;
     match goal with |- context [fault w ?e] =>
       destruct (fault w e) as [err|] eqn:Hc end; cbn [fst snd];
     [ rewrite bool_decide_eq_false_2 by done;
       apply wp_ret; no_close_listed |];
     rewrite bool_decide_eq_true_2 by done;
     apply wp_defer;
     match goal with |- wp ?body _ ?w3 =>
       let Hk := fresh "Hk" in
       assert (keeps no_close body) as Hk by keeps_tac;
       destruct (Hk w3) as (evs & Ht & Hno); unfold wp;
       exists evs; split; [|done];
       cbn [trace record]; rewrite Ht; cbn [trace record set_fs];
       by rewrite <- !app_assoc
     end).
Qed.

End partial.

(** ** The files an operation can touch *)

#[local] Instance untouched_refl q : Reflexive (untouched q).
Proof. by intros w. Qed.

#[local] Instance untouched_trans q : Transitive (untouched q).
Proof. intros w1 w2 w3 H1 H2. unfold untouched in *. congruence. Qed.

Lemma untouched_syscall q e step :
  (forall f g, step f = inr g -> g !! q = f !! q) ->
  keeps (untouched q) (syscall e step).
Proof.
  intros Hstep w. unfold syscall, untouched. destruct (fault w e); [done|].
  destruct (step (fs w)) eqn:E; [done|]. simpl. by eapply Hstep.
Qed.

Lemma untouched_os_Create q p : q <> p -> keeps (untouched q) (os_Create p).
Proof.
  intros Hq. apply untouched_syscall. intros f g Hg.
  destruct (f !! p) as [[]|]; simplify_eq; by rewrite lookup_insert_ne.
Qed.

Lemma untouched_file_Write q p data :
  q <> p -> keeps (untouched q) (file_Write p data).
Proof.
  intros Hq. apply untouched_syscall. intros f g Hg.
  destruct (f !! p) as [[]|]; simplify_eq; by rewrite lookup_insert_ne.
Qed.

Lemma untouched_os_Chmod q p m : q <> p -> keeps (untouched q) (os_Chmod p m).
Proof.
  intros Hq. apply untouched_syscall. intros f g Hg.
  destruct (f !! p) as [[]|]; simplify_eq; try done;
    by rewrite lookup_insert_ne.
Qed.

Lemma untouched_os_Symlink q o n :
  q <> n -> keeps (untouched q) (os_Symlink o n).
Proof.
  intros Hq. apply untouched_syscall. intros f g Hg.
  destruct (f !! n); simplify_eq; by rewrite lookup_insert_ne.
Qed.

Lemma untouched_os_Remove q p : q <> p -> keeps (untouched q) (os_Remove p).
Proof.
  intros Hq. apply untouched_syscall. intros f g Hg.
  destruct (f !! p); simplify_eq; by rewrite lookup_delete_ne.
Qed.

Lemma untouched_os_Stat q p : keeps (untouched q) (os_Stat p).
Proof. by intros w. Qed.

Lemma untouched_file_Close q p : keeps (untouched q) (file_Close p).
Proof. by intros w. Qed.

Lemma untouched_exec_Output q argv : keeps (untouched q) (exec_Output argv).
Proof. by intros w. Qed.

Lemma untouched_checkPrivileges q : keeps (untouched q) checkPrivileges.
Proof. by intros w. Qed.

Lemma untouched_executablePath q n : keeps (untouched q) (executablePath n).
Proof. by intros w. Qed.

#[local] Hint Resolve untouched_os_Create untouched_file_Write
  untouched_os_Chmod untouched_os_Symlink untouched_os_Remove
  untouched_os_Stat untouched_file_Close untouched_exec_Output
  untouched_checkPrivileges untouched_executablePath : keeps.

Section footprints.
Context {markers : Markers}.



End footprints.

(** ** Installing a systemd unit *)

(** The unit template parses, and renders for every service. *)
Lemma unit_file_ok :
  exists templ,
    template.Parse SystemD.systemDConfig = Some templ
    /\ forall linux exe args,
         template.Execute templ
           [("Name", SystemD.name linux); ("Port", SystemD.port linux);
            ("Version", SystemD.version linux);
            ("Description", SystemD.description linux);
            ("Dependencies", join " " (SystemD.dependencies linux));
            ("Path", join " " (app [exe] args))]
         = Some (unit_file linux exe args).
Proof.
  assert (exists t, template.Parse SystemD.systemDConfig = Some t
                    /\ fields_present
                         ["Name"; "Port"; "Version"; "Description";
                          "Dependencies"; "Path"] t = true) as (t & Ht & Hf)
      by (eexists; split; vm_compute; reflexivity).
  exists t. split; [done|]. intros linux exe args.
  unfold unit_file. rewrite Ht.
  match goal with |- ?e = _ => destruct e as [out|] eqn:E end; [done|].
  exfalso. eapply is_Some_None. rewrite <- E. by apply Execute_total.
Qed.

(** X12. The unit file of a service, for every record, executable and
    arguments: the description, the dependency list joined by spaces in both
    Requires and After, the PID file named after the service and removed
    before the start, the executable followed by the arguments as the
    start command, restart on abort, and the port and version. *)
Theorem unit_file_text (linux : SystemD.systemDRecord) (exe : string)
    (args : list string) :
  unit_file linux exe args
  = "[Unit]" +:+ nl
    +:+ "Description=" +:+ SystemD.description linux +:+ nl
    +:+ "Requires=" +:+ join " " (SystemD.dependencies linux) +:+ nl
    +:+ "After=" +:+ join " " (SystemD.dependencies linux) +:+ nl
    +:+ nl
    +:+ "[Service]" +:+ nl
    +:+ "PIDFile=/var/run/" +:+ SystemD.name linux +:+ ".pid" +:+ nl
    +:+ "ExecStartPre=/bin/rm -f /var/run/" +:+ SystemD.name linux
    +:+ ".pid" +:+ nl
    +:+ "ExecStart=" +:+ join " " (exe :: args) +:+ nl
    +:+ "Restart=on-abort" +:+ nl
    +:+ "Port=" +:+ SystemD.port linux +:+ nl
    +:+ "Version=" +:+ SystemD.version linux +:+ nl
    +:+ nl
    +:+ "[Install]" +:+ nl
    +:+ "WantedBy=multi-user.target" +:+ nl.
Proof. vm_compute. reflexivity. Qed.

Lemma wp_eq {A} (m : M A) (r : A * World) w :
  wp m (fun a w' => (a, w') = r) w -> m w = r.
Proof. unfold wp. by destruct (m w). Qed.

Lemma wp_exec_Run argv (Q : option error -> World -> Prop) w :
  wp (exec_Run argv) Q w
  <-> Q (snd (command w (trace w) argv)) (record (EvExec argv) w).
Proof.
  unfold wp, exec_Run. rewrite bind_run. unfold exec_Output. cbn [fst snd].
  by destruct (command w (trace w) argv).
Qed.

Section systemd_install.
Context {markers : Markers}.

(** X13. Once the systemd Install has written the unit file, it runs
    daemon-reload and then enable.  When daemon-reload fails it returns that
    error and enable is not run; when enable fails it returns that error;
    otherwise it reports success.  In the three cases the unit file stays as
    written, with the mode it was created with, and the file is closed
    last. *)
Theorem systemd_Install_run (linux : SystemD.systemDRecord)
    (args : list string) (exe : string) (w : World) :
  let p := SystemD.servicePath linux in
  let label := "Install " +:+ SystemD.description linux +:+ ":" in
  let reload := ["systemctl"; "daemon-reload"] in
  let enable := ["systemctl"; "enable"; SystemD.name linux +:+ ".service"] in
  let written := unit_written linux exe args w in
  let reloaded := record (EvExec reload) written in
  privileged w = true ->
  fs w !! p = None ->
  fault w (EvCreate p) = None ->
  executable w (SystemD.name linux) = (exe, None) ->
  fault w (EvWrite p (unit_file linux exe args)) = None ->
  SystemD.Install linux args w
  = match snd (command w (trace written) reload) with
    | Some e => ((label +:+ failed, Some e), record (EvClose p) reloaded)
    | None =>
        match snd (command w (trace reloaded) enable) with
        | Some e =>
            ((label +:+ failed, Some e),
             record (EvClose p) (record (EvExec enable) reloaded))
        | None =>
            ((label +:+ success, None),
             record (EvClose p) (record (EvExec enable) reloaded))
        end
    end.
Proof.
  intros p label reload enable written reloaded Hp Hf Hc Hexe Hw.
  subst p label reload enable written reloaded.
  apply wp_eq. unfold SystemD.Install.
  apply wp_bind. unfold wp at 1, checkPrivileges. cbn [fst snd].
  rewrite Hp. cbn [negb].
  unfold SystemD.isInstalled. apply wp_bind, wp_bind.
  unfold wp at 1, os_Stat. cbn [fst snd record fs].
  rewrite Hf. apply wp_ret. cbn [is_nil].
  apply wp_bind. unfold wp at 1, os_Create, syscall.
  cbn [fault record fs trace]. rewrite Hc, Hf. cbn [fst snd].
  apply wp_defer.
  apply wp_bind. unfold wp at 1, executablePath.
  cbn [executable record set_fs fst snd]. rewrite Hexe.
  destruct unit_file_ok as (templ & -> & Hrender).
  apply wp_bind. unfold template_Execute. rewrite Hrender.
  unfold wp at 1, file_Write, syscall.
  cbn [fault record set_fs fs trace]. rewrite Hw, lookup_insert_eq.
  cbn [fst snd]. rewrite insert_insert_eq.
  change (EmptyString +:+ unit_file linux exe args)
    with (unit_file linux exe args).
  match goal with |- wp _ _ ?w0 =>
    change w0 with (unit_written linux exe args w) end.
  apply wp_bind, wp_exec_Run.
  change (command (unit_written linux exe args w)) with (command w).
  match goal with |- context [command w ?t ?a] =>
    destruct (snd (command w t a)) as [e1|] end; [by apply wp_ret|].
  apply wp_bind, wp_exec_Run.
  match goal with |- context [command (record ?e ?w0)] =>
    change (command (record e w0)) with (command w) end.
  cbn [trace record].
  match goal with |- context [command w ?t ?a] =>
    destruct (snd (command w t a)) as [e2|] end; by apply wp_ret.
Qed.

End systemd_install.

(** ** Installing and removing on a host where nothing fails *)

Section round_trip.
Context {markers : Markers}.




End round_trip.

(** ** Install only adds, Remove only deletes *)

#[local] Instance preserved_refl q nd : Reflexive (preserved q nd).
Proof. intros w H. exact H. Qed.

#[local] Instance preserved_trans q nd : Transitive (preserved q nd).
Proof. intros w1 w2 w3 H1 H2 H. by apply H2, H1. Qed.

#[local] Instance still_absent_refl q : Reflexive (still_absent q).
Proof. intros w H. exact H. Qed.

#[local] Instance still_absent_trans q : Transitive (still_absent q).
Proof. intros w1 w2 w3 H1 H2 H. by apply H2, H1. Qed.

Lemma untouched_preserved q nd (m : M (option error)) :
  keeps (untouched q) m -> keeps (preserved q nd) m.
Proof. intros H w Hq. by rewrite (H w). Qed.

Lemma preserved_os_Create q nd p :
  q <> p -> keeps (preserved q nd) (os_Create p).
Proof. intros H. by apply untouched_preserved, untouched_os_Create. Qed.

Lemma preserved_file_Write q nd p data :
  q <> p -> keeps (preserved q nd) (file_Write p data).
Proof. intros H. by apply untouched_preserved, untouched_file_Write. Qed.

Lemma preserved_os_Chmod q nd p m :
  q <> p -> keeps (preserved q nd) (os_Chmod p m).
Proof. intros H. by apply untouched_preserved, untouched_os_Chmod. Qed.

Lemma preserved_os_Symlink q nd o n : keeps (preserved q nd) (os_Symlink o n).
Proof.
  intros w Hq. by apply (os_Symlink_step o n w).
Qed.

Lemma preserved_record q nd e w : preserved q nd w (record e w).
Proof. by intros H. Qed.

Lemma preserved_os_Stat q nd p : keeps (preserved q nd) (os_Stat p).
Proof. intros w. apply preserved_record. Qed.

Lemma preserved_file_Close q nd p : keeps (preserved q nd) (file_Close p).
Proof. intros w. apply preserved_record. Qed.

Lemma preserved_exec_Output q nd argv :
  keeps (preserved q nd) (exec_Output argv).
Proof. intros w. apply preserved_record. Qed.

Lemma preserved_checkPrivileges q nd : keeps (preserved q nd) checkPrivileges.
Proof. intros w. apply preserved_record. Qed.

Lemma preserved_executablePath q nd n :
  keeps (preserved q nd) (executablePath n).
Proof. intros w. apply preserved_record. Qed.

Lemma still_absent_os_Remove q p : keeps (still_absent q) (os_Remove p).
Proof. intros w Hq. by apply (os_Remove_step p w). Qed.

Lemma still_absent_record q e w : still_absent q w (record e w).
Proof. by intros H. Qed.

Lemma still_absent_os_Stat q p : keeps (still_absent q) (os_Stat p).
Proof. intros w. apply still_absent_record. Qed.

Lemma still_absent_exec_Output q argv :
  keeps (still_absent q) (exec_Output argv).
Proof. intros w. apply still_absent_record. Qed.

Lemma still_absent_checkPrivileges q : keeps (still_absent q) checkPrivileges.
Proof. intros w. apply still_absent_record. Qed.

#[local] Hint Resolve preserved_os_Create preserved_file_Write
  preserved_os_Chmod preserved_os_Symlink preserved_os_Stat
  preserved_file_Close preserved_exec_Output preserved_checkPrivileges
  preserved_executablePath still_absent_os_Remove still_absent_os_Stat
  still_absent_exec_Output still_absent_checkPrivileges : keeps.

Section monotone.
Context {markers : Markers}.



End monotone.

(** ** The fields of the init script *)

Lemma append_assoc (a b c : string) : (a +:+ b) +:+ c = a +:+ b +:+ c.
Proof. induction a as [|x a IH]; simpl; [done | by rewrite IH]. Qed.

Lemma has_suffix_split p t : has_suffix p t = true -> exists a, t = a +:+ p.
Proof.
  induction t as [|c t IH]; cbn [has_suffix].
  - rewrite orb_false_r. intros <-%String.eqb_eq. by exists EmptyString.
  - intros [<-%String.eqb_eq|H]%orb_prop; [by exists EmptyString|].
    destruct (IH H) as [a ->]. by exists (String c a).
Qed.

Lemma substring_of_append_l x pat s :
  substring_of pat s -> substring_of pat (x +:+ s).
Proof.
  intros (pre & post & ->). exists (x +:+ pre), post.
  by rewrite append_assoc.
Qed.

Lemma Execute_cons seg segs (d : template.data) out :
  template.Execute (seg :: segs) d = Some out ->
  exists x out', template.Execute segs d = Some out' /\ out = x +:+ out'
                 /\ match seg with
                    | template.Text t => x = t
                    | template.Action a =>
                        exists f, template.field_of a = Some f
                                  /\ template.lookup_field f d = Some x
                    end.
Proof.
  destruct seg as [t|a]; cbn [template.Execute].
  - destruct (template.Execute segs d) as [out'|]; [|done].
    intros [= <-]. by exists t, out'.
  - destruct (template.field_of a) as [f|]; [|done].
    destruct (template.lookup_field f d) as [v|] eqn:Ev; [|done].
    destruct (template.Execute segs d) as [out'|]; [|done].
    intros [= <-]. exists v, out'. split_and!; try done. by exists f.
Qed.

(** A field the template puts between two texts is between them in what is
    rendered. *)
Lemma field_between_rendered f p1 p2 segs (d : template.data) v out :
  field_between f p1 p2 segs = true ->
  template.lookup_field f d = Some v ->
  template.Execute segs d = Some out ->
  substring_of (p1 +:+ v +:+ p2) out.
Proof.
  intros Hb Hv. revert out Hb.
  induction segs as [|seg segs IH]; intros out; [done|].
  cbn [field_between]. intros [Hh|Hr]%orb_prop Hout.
  - destruct seg as [t1|]; [|done].
    destruct segs as [|[|a] [|[t2|] rest]]; try done.
    cbn [field_here] in Hh.
    apply andb_prop in Hh as [[Hs Hf%bool_decide_eq_true]%andb_prop
                                [b2 Hp]%bool_decide_eq_true].
    apply has_suffix_split in Hs as [a1 ->].
    apply strip_prefix_Some in Hp as ->.
    apply Execute_cons in Hout as (x1 & o1 & Ho1 & -> & ->).
    apply Execute_cons in Ho1 as (x2 & o2 & Ho2 & -> & (f' & Hf' & Hx2)).
    apply Execute_cons in Ho2 as (x3 & o3 & _ & -> & ->).
    assert (x2 = v) as -> by congruence.
    exists a1, (b2 +:+ o3). by rewrite !append_assoc.
  - apply Execute_cons in Hout as (x & out' & Ho & -> & _).
    by apply substring_of_append_l, IH.
Qed.

(** X17. Whatever the service, the executable and the arguments, the init
    script carries each of them where the script reads it: the executable
    in [exec="..."], the description in [servname="..."], the port in
    [port="..."], the version in [version="..."], the name in
    [proc="..."], and the arguments after [$exec] on the line that starts
    the program. *)
Theorem init_script_fields (linux : SystemV.systemVRecord) (exe : string)
    (args : list string) :
  let script := init_script linux exe args in
  substring_of (("exec=" +:+ dq) +:+ exe +:+ dq +:+ nl) script
  /\ substring_of (("servname=" +:+ dq) +:+ SystemV.description linux
                   +:+ dq +:+ nl) script
  /\ substring_of (("port=" +:+ dq) +:+ SystemV.port linux +:+ dq +:+ nl)
       script
  /\ substring_of (("version=" +:+ dq) +:+ SystemV.version linux
                   +:+ dq +:+ nl) script
  /\ substring_of (("proc=" +:+ dq) +:+ SystemV.name linux +:+ dq +:+ nl)
       script
  /\ substring_of ("$exec " +:+ join " " args
                   +:+ " >> $stdoutlog 2>> $stderrlog &") script.
Proof.
  cbv zeta.
  assert (exists t,
            template.Parse SystemV.systemVConfig = Some t
            /\ field_between "Path" ("exec=" +:+ dq) (dq +:+ nl) t = true
            /\ field_between "Description" ("servname=" +:+ dq) (dq +:+ nl) t
               = true
            /\ field_between "Port" ("port=" +:+ dq) (dq +:+ nl) t = true
            /\ field_between "Version" ("version=" +:+ dq) (dq +:+ nl) t
               = true
            /\ field_between "Name" ("proc=" +:+ dq) (dq +:+ nl) t = true
            /\ field_between "Args" "$exec "
                 " >> $stdoutlog 2>> $stderrlog &" t = true)
    as (t & Ht & H1 & H2 & H3 & H4 & H5 & H6)
      by (eexists; split_and!; vm_compute; reflexivity).
  destruct init_script_ok as (t' & Ht' & Hrender).
  assert (t' = t) as -> by congruence.
  specialize (Hrender linux exe args).
  split_and!;
    (eapply field_between_rendered; [eassumption | | exact Hrender];
     reflexivity).
Qed.

(** ** The status query, and the state after a removal *)

Section status_and_removal.
Context {markers : Markers}.

Lemma check_running_failed (d : Daemon) (w : World) :
  snd (command w (trace w) (action_command d "status")) <> None ->
  fst (check_running d w)
  = ("Service " +:+ service_name d +:+ " is stopped", false).
Proof.
  intros Herr.
  destruct d as [linux|linux];
    cbn [check_running action_command service_name] in *;
    unfold SystemD.checkRunning, SystemV.checkRunning, exec_Output, bind;
    destruct (command w (trace w) _) as [output [e|]]; cbn [fst snd] in *;
    done.
Qed.

Lemma call_not_installed (d : Daemon) (op : operation) (w : World) :
  privileged w = true ->
  fs w !! definition_path d = None ->
  needs_installation op = true ->
  call d op w
  = ((not_installed_message d op, Some ErrNotInstalled), checked d w).
Proof.
  intros Hp Hf Hop.
  destruct d as [linux|linux], op; try discriminate Hop;
    cbn [call definition_path not_installed_message action_label
           service_description] in *;
    run_checks Hp; rewrite bool_decide_eq_false_2; try done;
    rewrite Hf; by intros [? ?].
Qed.

Lemma Remove_ok_gone (d : Daemon) (w : World) :
  snd (fst (call d OpRemove w)) = None ->
  privileged w = true
  /\ fs (snd (call d OpRemove w)) !! definition_path d = None.
Proof.
  change (wp (call d OpRemove)
            (fun res w' =>
               snd res = None ->
               privileged w = true /\ fs w' !! definition_path d = None) w).
  destruct d as [linux|linux]; cbn [call definition_path];
    unfold_methods; apply wp_bind; unfold wp at 1, checkPrivileges;
    cbn [fst snd]; destruct (privileged w) eqn:Hp; cbn [negb];
    try (apply wp_ret; discriminate);
    unfold SystemD.isInstalled, SystemV.isInstalled;
    apply wp_bind, wp_bind; unfold wp at 1, os_Stat; cbn [fst snd record fs];
    (destruct (fs w !! _) as [nd|] eqn:Hnd; apply wp_ret; cbn [is_nil negb];
     [|apply wp_ret; discriminate]).
  - apply wp_bind, wp_exec_Run. cbn [command record].
    destruct (snd (command w _ _)); [apply wp_ret; discriminate|].
    apply wp_bind. unfold wp at 1.
    rewrite (os_Remove_run _ _ nd) by done.
    cbn [fault record]. destruct (fault w _); cbn [fst snd];
      apply wp_ret; [discriminate|].
    intros _. split; [done|]. cbn [fs record set_fs].
    by rewrite lookup_delete_eq.
  - apply wp_bind. unfold wp at 1.
    rewrite (os_Remove_run _ _ nd) by done.
    cbn [fault record]. destruct (fault w _); cbn [fst snd];
      [apply wp_ret; discriminate|].
    match goal with |- wp _ _ ?w0 => set (w3 := w0) end.
    assert (fs w3 !! SystemV.servicePath linux = None) as Hg0
        by (cbn; by rewrite lookup_delete_eq).
    clearbody w3.
    apply wp_bind. unfold wp at 1.
    destruct (remove_loop
                (fun i => "/etc/rc" +:+ i +:+ ".d/S87" +:+ SystemV.name linux)
                ["2"; "3"; "4"; "5"] w3) as (_ & _ & Hk1 & _).
    match goal with |- wp _ _ ?w0 => set (w4 := w0) in * end.
    clearbody w4.
    apply wp_bind. unfold wp at 1.
    destruct (remove_loop
                (fun i => "/etc/rc" +:+ i +:+ ".d/K17" +:+ SystemV.name linux)
                ["0"; "1"; "6"] w4) as (_ & _ & Hk2 & _).
    match goal with |- wp _ _ ?w0 => set (w5 := w0) in * end.
    clearbody w5.
    apply wp_ret. intros _. split; [done|]. by apply Hk2, Hk1.
Qed.

(** X18. With the privileges held and the service installed, Status runs
    the status command, and nothing else, and returns the message of the
    status parser with no error.  A status command that fails is not
    reported: Status then answers that the service is stopped, with no
    error. *)
Theorem Status_run (d : Daemon) (w : World) :
  privileged w = true ->
  is_Some (fs w !! definition_path d) ->
  let status := action_command d "status" in
  call d OpStatus w
  = ((fst (fst (check_running d (checked d w))), None),
     record (EvExec status) (checked d w))
  /\ (snd (command w (trace (checked d w)) status) <> None ->
      fst (call d OpStatus w)
      = ("Service " +:+ service_name d +:+ " is stopped", None)).
Proof.
  intros Hp Hf. cbv zeta.
  assert (call d OpStatus w
          = ((fst (fst (check_running d (checked d w))), None),
             record (EvExec (action_command d "status")) (checked d w)))
    as ->.
  { pose proof (check_running_world d (checked d w)) as Hw.
    destruct d as [linux|linux];
      cbn [call definition_path check_running action_command] in *;
      run_checks Hp; rewrite bool_decide_eq_true_2 by done; cbn [negb];
      rewrite bind_run; unfold checked in *; cbn [definition_path] in *;
      first [query_status SystemD.checkRunning
            |query_status SystemV.checkRunning];
      cbn [fst snd] in *; by subst w1. }
  split; [done|]. intros Herr. cbn [fst].
  by rewrite (check_running_failed d (checked d w)).
Qed.

(** X19. A Remove that returns no error has deleted the definition file:
    the service then counts as not installed, so that every operation but
    Install, called next, returns the NotInstalled error after its two
    checks and runs no command. *)
Theorem Remove_then_not_installed (d : Daemon) (op : operation) (w : World) :
  snd (fst (call d OpRemove w)) = None ->
  needs_installation op = true ->
  let w' := snd (call d OpRemove w) in
  fs w' !! definition_path d = None
  /\ call d op w'
     = ((not_installed_message d op, Some ErrNotInstalled), checked d w').
Proof.
  intros Hok Hop. cbv zeta.
  destruct (Remove_ok_gone d w Hok) as [Hp Hgone].
  split; [done|].
  apply call_not_installed; [|done..].
  destruct (frame_call d OpRemove w) as (-> & _). done.
Qed.

End status_and_removal.

(** ** More concrete runs *)

Section more_runs.
#[local] Existing Instance sample_markers.

Lemma not_installed_guard_witness :
  let w := host true no_files "/usr/bin/foo" (EmptyString, None) no_fault in
  call (systemV foo_V) OpStart w
  = (("Starting Foo Service:" +:+ failed, Some ErrNotInstalled),
     checked (systemV foo_V) w).
Proof.
  cbv zeta.
  destruct (not_installed_guard (systemV foo_V) OpStart
              (host true no_files "/usr/bin/foo" (EmptyString, None) no_fault)
              eq_refl ltac:(vm_compute; reflexivity) eq_refl) as [H _].
  exact H.
Defined.

Lemma Start_run_witness :
  let w := host true installed_files "/usr/bin/foo"
             ("Service foo is stopped", None) no_fault in
  fst (call (systemV foo_V) OpStart w)
  = ("Starting Foo Service:" +:+ success, None)
  /\ trace (snd (call (systemV foo_V) OpStart w))
     = [EvCheckPrivileges; EvStat "/etc/init.d/foo";
        EvExec ["service"; "foo"; "status"];
        EvExec ["service"; "foo"; "start"]].
Proof.
  cbv zeta.
  pose proof (Start_run (systemV foo_V)
                (host true installed_files "/usr/bin/foo"
                   ("Service foo is stopped", None) no_fault)
                eq_refl ltac:(eexists; vm_compute; reflexivity)) as H.
  cbv zeta in H. rewrite H. vm_compute. split; reflexivity.
Defined.

Lemma Stop_run_witness :
  let w := host true installed_files "/usr/bin/foo"
             ("Service foo (pid  99) is running...", None) no_fault in
  fst (call (systemV foo_V) OpStop w)
  = ("Stopping Foo Service:" +:+ success, None)
  /\ trace (snd (call (systemV foo_V) OpStop w))
     = [EvCheckPrivileges; EvStat "/etc/init.d/foo";
        EvExec ["service"; "foo"; "status"];
        EvExec ["service"; "foo"; "stop"]].
Proof.
  cbv zeta.
  pose proof (Stop_run (systemV foo_V)
                (host true installed_files "/usr/bin/foo"
                   ("Service foo (pid  99) is running...", None) no_fault)
                eq_refl ltac:(eexists; vm_compute; reflexivity)) as H.
  cbv zeta in H. rewrite H. vm_compute. split; reflexivity.
Defined.

Lemma Restart_run_witness :
  let w := host true installed_files "/usr/bin/foo"
             (EmptyString, Some injected) no_fault in
  call (systemD foo_D) OpRestart w
  = (("Restarting Foo Service:" +:+ failed, Some injected),
     record (EvExec ["systemctl"; "restart"; "foo.service"])
       (checked (systemD foo_D) w)).
Proof.
  cbv zeta.
  pose proof (Restart_run (systemD foo_D)
                (host true installed_files "/usr/bin/foo"
                   (EmptyString, Some injected) no_fault)
                eq_refl ltac:(eexists; vm_compute; reflexivity)) as H.
  cbv zeta in H. rewrite H. reflexivity.
Defined.



Lemma sysv_checkRunning_stopped_witness :
  let w := host true installed_files "/usr/bin/foo"
             ("foo is running", Some injected) no_fault in
  fst (SystemV.checkRunning foo_V w) = ("Service foo is stopped", false).
Proof.
  cbv zeta.
  apply (sysv_checkRunning_stopped foo_V
           (host true installed_files "/usr/bin/foo"
              ("foo is running", Some injected) no_fault)).
  left. vm_compute. discriminate.
Defined.

Lemma Install_leaves_definition_file_witness :
  let w' := snd (call (systemD foo_D) (OpInstall ["--x"]) lost_host) in
  fst (call (systemD foo_D) (OpInstall ["--x"]) lost_host)
  = ("Install Foo Service:" +:+ failed, Some injected)
  /\ fs w' !! "/etc/systemd/system/foo.service"
     = Some (File EmptyString mode_0666)
  /\ fst (call (systemD foo_D) (OpInstall ["--x"]) w')
     = ("Install Foo Service:" +:+ failed, Some ErrAlreadyInstalled).
Proof.
  cbv zeta.
  destruct (Install_leaves_definition_file (systemD foo_D) ["--x"] lost_host
              eq_refl ltac:(vm_compute; reflexivity) eq_refl)
    as (_ & Hnext & Hlost).
  destruct (Hlost EmptyString injected eq_refl) as [H1 H2].
  split; [exact H1|]. split; [exact H2|].
  rewrite (Hnext ["--x"]). reflexivity.
Defined.


Lemma systemd_Install_run_witness :
  let w := host true no_files "/usr/bin/foo" (EmptyString, None) no_fault in
  fst (SystemD.Install foo_D ["--x"] w)
  = ("Install Foo Service:" +:+ success, None)
  /\ fs (snd (SystemD.Install foo_D ["--x"] w))
     !! "/etc/systemd/system/foo.service"
     = Some (File (unit_file foo_D "/usr/bin/foo" ["--x"]) mode_0666).
Proof.
  cbv zeta.
  pose proof (systemd_Install_run foo_D ["--x"] "/usr/bin/foo"
                (host true no_files "/usr/bin/foo" (EmptyString, None)
                   no_fault)
                eq_refl ltac:(vm_compute; reflexivity) eq_refl eq_refl
                eq_refl) as H.
  cbv zeta in H. rewrite H. vm_compute. split; reflexivity.
Defined.




Lemma Status_run_witness :
  let w := host true installed_files "/usr/bin/foo"
             (EmptyString, Some injected) no_fault in
  fst (call (systemD foo_D) OpStatus w) = ("Service foo is stopped", None).
Proof.
  cbv zeta.
  destruct (Status_run (systemD foo_D)
              (host true installed_files "/usr/bin/foo"
                 (EmptyString, Some injected) no_fault)
              eq_refl ltac:(eexists; vm_compute; reflexivity)) as [_ H].
  cbv zeta in H. apply H. vm_compute. discriminate.
Defined.

Lemma Remove_then_not_installed_witness :
  let w := host true installed_files "/usr/bin/foo" (EmptyString, None)
             no_fault in
  let w' := snd (call (systemV foo_V) OpRemove w) in
  call (systemV foo_V) OpStart w'
  = (("Starting Foo Service:" +:+ failed, Some ErrNotInstalled),
     checked (systemV foo_V) w').
Proof.
  cbv zeta.
  destruct (Remove_then_not_installed (systemV foo_V) OpStart
              (host true installed_files "/usr/bin/foo" (EmptyString, None)
                 no_fault)
              ltac:(vm_compute; reflexivity) eq_refl) as [_ H].
  exact H.
Defined.

End more_runs.
